(** * Backtesting: the engine contract, the [useBacktest] hook and the backtest page

    The development has three layers.

    - [Engine]: the single-asset backtesting engine (strategy policies,
      execution simulator, performance analyzer, orchestrator).
    - [Hook]: the React hook [useBacktest] of
      [frontend/src/hooks/useBacktest.ts], as explicit state passing over
      the three [useState] cells.
    - [Page]: the backtest page component, as an event-driven state
      machine over the form state, the hook state and the pending
      [runBacktest] promises, together with the part of its render
      function the properties below talk about.

    Numbers are exact rationals ([Q]); the text of the Ticker field,
    which the page case-maps, is a sequence of Unicode code points
    ([Text]), every other JavaScript string is a [string]; [null] is
    [None]. *)

From Stdlib Require Import ZArith NArith QArith Qround List String Ascii Bool Lia.
Import ListNotations.
Local Open Scope Q_scope.

(** ** Shared data model: the result payload exchanged between engine and page *)

(** Calendar dates are carried as day numbers. *)
Definition Date := Z.

Inductive ExitReason :=
| exit_signal
| exit_stop_loss
| exit_take_profit
| exit_end_of_period.

Record Trade := {
  entry_date : Date;
  exit_date : Date;
  entry_price : Q;
  exit_price : Q;
  shares : Q;
  pnl : Q;
  return_pct : Q;
  hold_days : Z;
  exit_reason : ExitReason
}.

Record BacktestResult := {
  final_value : Q;
  total_return : Q;
  annual_return : Q;
  volatility : Q;
  sharpe_ratio : Q;
  max_drawdown : Q;
  total_trades : nat;
  win_rate : Q;
  benchmark_return : Q;
  alpha : Q;
  trades : list Trade
}.

(** The text of the Ticker field, which the page case-maps: a JavaScript
    string as the sequence of its Unicode code points (a surrogate pair
    is one code point, a lone surrogate stands for itself). *)
Definition Text := list N.

(** The text of an ASCII literal. *)
Definition text (s : string) : Text :=
  map N_of_ascii (list_ascii_of_string s).

(** The request payload built by the page ([BacktestConfig] of [lib/types]);
    the optional fields are [number | null]. *)
Record BacktestConfig := {
  strategy_type : string;
  ticker : Text;
  start_date : string;
  end_date : string;
  initial_capital : Q;
  position_size : Q;
  commission : Q;
  slippage : Q;
  stop_loss : option Q;
  take_profit : option Q
}.

(** One entry of the strategies query ([StrategyInfo] of [lib/types]). *)
Record StrategyInfo := {
  name : string;
  display_name : string
}.

Record StrategiesResponse := {
  strategies : list StrategyInfo
}.

(** ** The backtesting engine

    The engine runs behind [runBacktest]; its sources are not part of the
    front-end tree, which holds only its callers (the page and the hook).
    Every definition of this module is therefore written from the
    specification: sections 3 (data model) and 4.1 to 4.4 (components). *)

Module Engine.

(** Modelled from the spec: the Bar of the data model (the engine's
    sources are not part of the front-end tree). *)
Record Bar := {
  date : Date;
  open : Q;
  high : Q;
  low : Q;
  close : Q;
  volume : Q
}.

(** Modelled from the spec: the strategy variants of the Strategy Policy
    component, as a closed set of tagged variants. *)
Inductive Strategy :=
| BuyHold
| MACrossover (fast slow : nat)
| RSIMeanReversion (oversold overbought : Q).

(** Modelled from the spec: the BacktestConfig of the data model, with the
    strategy identifier already resolved to its variant and the dates
    parsed. *)
Record Config := {
  strategy : Strategy;
  ticker : string;
  start_date : Date;
  end_date : Date;
  initial_capital : Q;
  position_size : Q;
  commission : Q;
  slippage : Q;
  stop_loss : option Q;
  take_profit : option Q
}.

(** Modelled from the spec: the three decisions of a Strategy Policy. *)
Inductive Decision := Enter | Exit | Hold.

(** Modelled from the spec: the open Position of the simulator ([None] is
    the Flat state). *)
Record Position := {
  pos_entry_date : Date;
  pos_entry_price : Q;
  pos_shares : Q
}.

(** Modelled from the spec: the state threaded through the per-bar loop:
    free capital, the position, the Trade Ledger and the EquityCurve built
    so far (both in chronological order). *)
Record SimState := {
  capital : Q;
  position : option Position;
  ledger : list Trade;
  curve : list Q
}.

(** Modelled from the spec: the two error kinds of the Orchestrator, a
    validation error naming the offending field and the data-availability
    error. *)
Inductive BacktestError :=
| ValidationError (field : string)
| DataUnavailable.

(** Modelled from the spec: what the Orchestrator answers. *)
Inductive Outcome :=
| Ok (r : BacktestResult)
| Failed (e : BacktestError).

(** *** Arithmetic helpers *)

Definition sum_Q (l : list Q) : Q := fold_right Qplus 0 l.

Definition count_Q (l : list Q) : Q := inject_Z (Z.of_nat (List.length l)).

Definition mean (l : list Q) : Q := sum_Q l / count_Q l.

Definition last_n (n : nat) (l : list Q) : list Q :=
  skipn (List.length l - n) l.

Definition qmax (a b : Q) : Q := if Qle_bool a b then b else a.

(** *** Strategy Policy *)

(** Modelled from the spec: a moving average over the last [n] closes,
    undefined until [n] closes are visible. *)
Definition sma (n : nat) (prices : list Q) : option Q :=
  if ((n =? 0) || (List.length prices <? n))%nat then None
  else Some (mean (last_n n prices)).

(** Modelled from the spec: the close-to-close changes RSI averages. *)
Fixpoint changes (prices : list Q) : list Q :=
  match prices with
  | a :: (b :: _) as rest => (b - a) :: changes rest
  | _ => []
  end.

(** Modelled from the spec: the gain and the loss in one change. *)
Definition gain (d : Q) : Q := if Qle_bool 0 d then d else 0.

Definition loss (d : Q) : Q := if Qle_bool 0 d then 0 else - d.

(** Modelled from the spec: RSI over the last [period] changes (simple
    averages of gains and losses), undefined until [period] changes are
    visible; 100 when there is no loss in the window. *)
Definition rsi (period : nat) (prices : list Q) : option Q :=
  let ds := changes prices in
  if ((period =? 0) || (List.length ds <? period))%nat then None
  else
    let w := last_n period ds in
    let avg_gain := mean (map gain w) in
    let avg_loss := mean (map loss w) in
    Some (if Qeq_bool avg_loss 0 then 100
          else 100 - 100 / (1 + avg_gain / avg_loss)).

(** Modelled from the spec: Enter when fast crosses above slow on this bar
    (was <= on the prior bar, now >), Exit on the symmetric downward
    cross, Hold until both averages have enough history. *)
Definition ma_crossover (fast slow : nat) (hist : list Bar) : Decision :=
  let now := map close hist in
  let before := removelast now in
  match sma fast before, sma slow before, sma fast now, sma slow now with
  | Some f0, Some s0, Some f1, Some s1 =>
      if Qle_bool f0 s0 && negb (Qle_bool f1 s1) then Enter
      else if Qle_bool s0 f0 && negb (Qle_bool s1 f1) then Exit
      else Hold
  | _, _, _, _ => Hold
  end.

(** Modelled from the spec: Enter when RSI(14) crosses below the oversold
    threshold, Exit when it crosses above the overbought threshold. *)
Definition rsi_reversion (oversold overbought : Q) (hist : list Bar)
    : Decision :=
  let now := map close hist in
  let before := removelast now in
  match rsi 14 before, rsi 14 now with
  | Some r0, Some r1 =>
      if Qle_bool oversold r0 && negb (Qle_bool oversold r1) then Enter
      else if Qle_bool r0 overbought && negb (Qle_bool r1 overbought)
           then Exit
      else Hold
  | _, _ => Hold
  end.

(** Modelled from the spec: the Strategy Policy contract. [hist] is the
    bar history from the series start up to and including the current
    bar. Buy-and-hold enters on the first bar and never exits. *)
Definition decide (s : Strategy) (hist : list Bar) : Decision :=
  match s with
  | BuyHold =>
      match hist with
      | [_] => Enter
      | _ => Hold
      end
  | MACrossover fast slow => ma_crossover fast slow hist
  | RSIMeanReversion oversold overbought =>
      rsi_reversion oversold overbought hist
  end.


(** *** Execution Simulator *)

(** Modelled from the spec: the initial state, Flat with the initial
    capital, an empty ledger and an empty curve. *)
Definition initial_state (cfg : Config) : SimState :=
  {| capital := initial_capital cfg; position := None;
     ledger := []; curve := [] |}.

(** Modelled from the spec: slippage moves the fill against the trader; a
    buy fills above the price. *)
Definition buy_fill (cfg : Config) (price : Q) : Q :=
  price * (1 + slippage cfg).

(** Modelled from the spec: a sell fills below the price. *)
Definition sell_fill (cfg : Config) (price : Q) : Q :=
  price * (1 - slippage cfg).

(** Modelled from the spec: step 2 of the per-bar algorithm, with
    fractional shares. *)
Definition open_position (cfg : Config) (b : Bar) (st : SimState)
    : SimState :=
  let fill := buy_fill cfg (close b) in
  let n := position_size cfg * capital st / fill in
  let notional := n * fill in
  let fee := commission cfg * notional in
  {| capital := capital st - notional - fee;
     position := Some {| pos_entry_date := date b;
                         pos_entry_price := fill;
                         pos_shares := n |};
     ledger := ledger st;
     curve := curve st |}.

(** Modelled from the spec: the sell side of steps 3 and 5: fill at
    [price] moved against the trader, commission on the exit notional,
    one Trade appended to the ledger. *)
Definition close_position (cfg : Config) (p : Position) (b : Bar)
    (price : Q) (why : ExitReason) (st : SimState) : SimState :=
  let fill := sell_fill cfg price in
  let proceeds := pos_shares p * fill in
  let fee := commission cfg * proceeds in
  let cost := pos_shares p * pos_entry_price p in
  let profit := proceeds - fee - cost - commission cfg * cost in
  {| capital := capital st + proceeds - fee;
     position := None;
     ledger := ledger st ++
       [ {| entry_date := pos_entry_date p;
            exit_date := date b;
            entry_price := pos_entry_price p;
            exit_price := fill;
            shares := pos_shares p;
            pnl := profit;
            return_pct := profit / cost;
            hold_days := (date b - pos_entry_date p)%Z;
            exit_reason := why |} ];
     curve := curve st |}.

Definition first_some {A : Type} (a b : option A) : option A :=
  match a with
  | Some _ => a
  | None => b
  end.

(** Modelled from the spec: the stop-loss trigger, bar low at or below
    entry_price * (1 - stop_loss); the answer is the threshold price. *)
Definition stop_exit (cfg : Config) (p : Position) (b : Bar)
    : option (Q * ExitReason) :=
  match stop_loss cfg with
  | Some sl =>
      let thr := pos_entry_price p * (1 - sl) in
      if Qle_bool (low b) thr then Some (thr, exit_stop_loss) else None
  | None => None
  end.

(** Modelled from the spec: the take-profit trigger, bar high at or above
    entry_price * (1 + take_profit). *)
Definition target_exit (cfg : Config) (p : Position) (b : Bar)
    : option (Q * ExitReason) :=
  match take_profit cfg with
  | Some tp =>
      let thr := pos_entry_price p * (1 + tp) in
      if Qle_bool thr (high b) then Some (thr, exit_take_profit) else None
  | None => None
  end.

(** Modelled from the spec: the strategy's Exit, filled from the bar's
    close. *)
Definition signal_exit (b : Bar) (d : Decision) : option (Q * ExitReason) :=
  match d with
  | Exit => Some (close b, exit_signal)
  | _ => None
  end.

(** Modelled from the spec: the exit triggers in their fixed priority:
    stop-loss, then take-profit, then the strategy's Exit. *)
Definition exit_trigger (cfg : Config) (p : Position) (b : Bar)
    (d : Decision) : option (Q * ExitReason) :=
  first_some (stop_exit cfg p b)
    (first_some (target_exit cfg p b) (signal_exit b d)).

(** Modelled from the spec: steps 1 to 3 of the per-bar algorithm; the
    state at the start of the bar decides which of step 2 and step 3
    applies. *)
Definition trade_step (cfg : Config) (hist : list Bar) (b : Bar)
    (st : SimState) : SimState :=
  let d := decide (strategy cfg) hist in
  match position st with
  | None =>
      match d with
      | Enter => open_position cfg b st
      | _ => st
      end
  | Some p =>
      match exit_trigger cfg p b d with
      | Some (price, why) => close_position cfg p b price why st
      | None => st
      end
  end.

(** Modelled from the spec: step 4, the bar's mark-to-market value. *)
Definition mark_to_market (st : SimState) (b : Bar) : Q :=
  match position st with
  | None => capital st
  | Some p => capital st + pos_shares p * close b
  end.

(** Modelled from the spec: step 4, the curve grows by one value per bar. *)
Definition record_equity (b : Bar) (st : SimState) : SimState :=
  {| capital := capital st; position := position st; ledger := ledger st;
     curve := curve st ++ [mark_to_market st b] |}.

(** Modelled from the spec: the per-bar algorithm, steps 1 to 4. *)
Definition bar_step (cfg : Config) (hist : list Bar) (b : Bar)
    (st : SimState) : SimState :=
  record_equity b (trade_step cfg hist b st).

(** Modelled from the spec: the single pass over the Bar Series; [seen]
    are the bars already processed. *)
Fixpoint walk (cfg : Config) (seen rest : list Bar) (st : SimState)
    : SimState :=
  match rest with
  | [] => st
  | b :: rest' =>
      walk cfg (seen ++ [b]) rest' (bar_step cfg (seen ++ [b]) b st)
  end.

(** Modelled from the spec: step 5, the forced close at the final bar's
    close. *)
Definition force_close (cfg : Config) (bars : list Bar) (st : SimState)
    : SimState :=
  match position st, rev bars with
  | Some p, b :: _ => close_position cfg p b (close b) exit_end_of_period st
  | _, _ => st
  end.

(** Modelled from the spec: the Execution Simulator, from the initial
    state through every bar to the forced close. *)
Definition simulate (cfg : Config) (bars : list Bar) : SimState :=
  force_close cfg bars (walk cfg [] bars (initial_state cfg)).

(** *** The divisions of the simulator, checked

    A division by zero is where a number stops being finite. The checked
    simulator is the simulator with the one division that reaches the
    metrics made partial: the number of shares bought. (The return_pct of
    a Trade is not among the metrics and stays as it is; the indicators
    of the strategies divide by their period, which is not 0, and by an
    average loss which they compare with 0 first.) *)

(** Modelled from the spec: a division, undefined at divisor 0. *)
Definition div_checked (a b : Q) : option Q :=
  if Qeq_bool b 0 then None else Some (a / b).





(** *** Performance Analyzer and Orchestrator *)

Section Analyzer.

(** The square root and the power function of the numeric library the
    analyzer computes with. *)
Variable sqrtF : Q -> Q.
Variable powF : Q -> Q -> Q.

(** Modelled from the spec: the daily returns, period-over-period
    percentage change of the EquityCurve. *)
Fixpoint daily_returns (values : list Q) : list Q :=
  match values with
  | a :: (b :: _) as rest => (b - a) / a :: daily_returns rest
  | _ => []
  end.

(** Modelled from the spec: the sample variance and the standard deviation
    of the daily returns. *)
Definition variance (l : list Q) : Q :=
  let m := mean l in
  sum_Q (map (fun x => (x - m) * (x - m)) l)
  / inject_Z (Z.of_nat (List.length l - 1)).

Definition stdev (l : list Q) : Q :=
  if (List.length l <? 2)%nat then 0 else sqrtF (variance l).

(** Modelled from the spec: annualized volatility, 0 with fewer than 2
    return observations. *)
Definition volatility_of (rets : list Q) : Q :=
  if (List.length rets <? 2)%nat then 0 else stdev rets * sqrtF 252.

(** Modelled from the spec: the Sharpe ratio at risk-free rate 0,
    defined as 0 when the standard deviation is 0. *)
Definition sharpe_of (rets : list Q) : Q :=
  let sd := stdev rets in
  if Qeq_bool sd 0 then 0 else mean rets / sd * sqrtF 252.

(** Modelled from the spec: the largest (peak - value) / peak over the
    running peaks of the EquityCurve. *)
Fixpoint drawdown_from (peak : Q) (values : list Q) : Q :=
  match values with
  | [] => 0
  | v :: rest =>
      let peak' := qmax peak v in
      qmax ((peak' - v) / peak') (drawdown_from peak' rest)
  end.

Definition max_drawdown_of (values : list Q) : Q :=
  match values with
  | [] => 0
  | v :: _ => drawdown_from v values
  end.

(** Modelled from the spec: the trades with pnl > 0. *)
Definition wins (ts : list Trade) : nat :=
  List.length (filter (fun t => negb (Qle_bool (pnl t) 0)) ts).

(** Modelled from the spec: wins over trades, 0 without trades. *)
Definition win_rate_of (ts : list Trade) : Q :=
  match ts with
  | [] => 0
  | _ => inject_Z (Z.of_nat (wins ts))
         / inject_Z (Z.of_nat (List.length ts))
  end.

(** Modelled from the spec: buy-and-hold total return over the same
    bars. *)
Definition benchmark_of (bars : list Bar) : Q :=
  match bars, rev bars with
  | first :: _, last :: _ => close last / close first - 1
  | _, _ => 0
  end.

(** Modelled from the spec: the calendar span between the first and the
    last bar date. *)
Definition elapsed_days (bars : list Bar) : Z :=
  match bars, rev bars with
  | first :: _, last :: _ => (date last - date first)%Z
  | _, _ => 0%Z
  end.

(** Modelled from the spec: CAGR, 0 for a span of 0 days. *)
Definition annual_return_of (total : Q) (days : Z) : Q :=
  if (days =? 0)%Z then 0
  else powF (1 + total) ((36525 # 100) / inject_Z days) - 1.

(** Modelled from the spec: the Performance Analyzer, on the terminal
    state of the simulator. *)
Definition analyze (cfg : Config) (bars : list Bar) (st : SimState)
    : BacktestResult :=
  let total := capital st / initial_capital cfg - 1 in
  let rets := daily_returns (curve st) in
  let bench := benchmark_of bars in
  {| final_value := capital st;
     total_return := total;
     annual_return := annual_return_of total (elapsed_days bars);
     volatility := volatility_of rets;
     sharpe_ratio := sharpe_of rets;
     max_drawdown := max_drawdown_of (curve st);
     total_trades := List.length (ledger st);
     win_rate := win_rate_of (ledger st);
     benchmark_return := bench;
     alpha := total - bench;
     trades := ledger st |}.

(** Modelled from the spec: the validation of the Orchestrator; the
    answer names the offending field. *)
Definition validate (cfg : Config) : option string :=
  if negb (start_date cfg <? end_date cfg)%Z then Some "end_date"%string
  else if String.eqb (ticker cfg) EmptyString then Some "ticker"%string
  else if Qle_bool (initial_capital cfg) 0
       then Some "initial_capital"%string
  else if Qle_bool (position_size cfg) 0
          || negb (Qle_bool (position_size cfg) 1)
       then Some "position_size"%string
  else if negb (Qle_bool 0 (commission cfg)) then Some "commission"%string
  else if negb (Qle_bool 0 (slippage cfg)) then Some "slippage"%string
  else None.

(** Modelled from the spec: the Backtest Orchestrator, given the Bar
    Series the market-data collaborator returned. *)
Definition run_backtest (cfg : Config) (bars : list Bar) : Outcome :=
  match validate cfg with
  | Some field => Failed (ValidationError field)
  | None =>
      match bars with
      | [] => Failed DataUnavailable
      | _ => Ok (analyze cfg bars (simulate cfg bars))
      end
  end.

(** *** The divisions of the analyzer, checked *)










(** Modelled from the spec: the benchmark return, checked: undefined when
    the first close is 0. *)
Definition benchmark_checked (bars : list Bar) : option Q :=
  match bars, rev bars with
  | first :: _, last :: _ =>
      option_map (fun q => q - 1) (div_checked (close last) (close first))
  | _, _ => Some 0
  end.




End Analyzer.

End Engine.

(** ** The hook [useBacktest] *)

Module Hook.

(** The three [useState] cells. *)
Record State := {
  isRunning : bool;
  result : option BacktestResult;
  error : option string
}.

Definition initial : State :=
  {| isRunning := false; result := None; error := None |}.

Definition setIsRunning (b : bool) (s : State) : State :=
  {| isRunning := b; result := result s; error := error s |}.

Definition setResult (r : option BacktestResult) (s : State) : State :=
  {| isRunning := isRunning s; result := r; error := error s |}.

Definition setError (e : option string) (s : State) : State :=
  {| isRunning := isRunning s; result := result s; error := e |}.

(** What a rejected promise carries: an [Error] instance with its
    [message], or any other thrown value. *)
Inductive Thrown :=
| ErrorObject (message : string)
| NonError.

(** How the promise returned by [runBacktest] settles. *)
Inductive Settled :=
| Resolved (data : BacktestResult)
| Rejected (err : Thrown).

(** How the promise returned by [run] settles. *)
Inductive Completion :=
| Returned (data : BacktestResult)
| Threw (err : Thrown).

(** [err instanceof Error ? err.message : "Backtest failed"] *)
Definition error_message (err : Thrown) : string :=
  match err with
  | ErrorObject message => message
  | NonError => "Backtest failed"
  end.

(** [run], up to the [await]: the three setters before the [try]. *)
Definition run_start (s : State) : State :=
  setResult None (setError None (setIsRunning true s)).

(** [run], from the [await] on: the [try] or the [catch] branch, then
    [finally]. *)
Definition run_settle (o : Settled) (s : State) : State * Completion :=
  match o with
  | Resolved data =>
      (setIsRunning false (setResult (Some data) s), Returned data)
  | Rejected err =>
      (setIsRunning false (setError (Some (error_message err)) s), Threw err)
  end.

Definition reset (s : State) : State :=
  setIsRunning false (setError None (setResult None s)).

(** At most one of [result] and [error] is non-null. *)
Definition exclusive (s : State) : Prop :=
  result s = None \/ error s = None.

(** *** The hook as its caller drives it

    [run] is asynchronous. Calling it executes the function up to the
    [await] ([run_start]) and hands back a promise; the rest
    ([run_settle]) executes when the promise of [runBacktest] settles.
    Further calls of [run] and [reset] may fall in between. *)
Inductive Call :=
| CallRun (config : BacktestConfig)
| SettleRun (o : Settled)
| CallReset.

(** The cells, and the number of [run] calls awaiting [runBacktest]. *)
Record Machine := {
  cells : State;
  awaiting : nat
}.

Definition boot : Machine := {| cells := initial; awaiting := 0 |}.

(** One step of the caller; [None] when no promise is there to settle. *)
Definition call (c : Call) (m : Machine) : option Machine :=
  match c with
  | CallRun _ =>
      Some {| cells := run_start (cells m); awaiting := S (awaiting m) |}
  | SettleRun o =>
      match awaiting m with
      | O => None
      | S n => Some {| cells := fst (run_settle o (cells m)); awaiting := n |}
      end
  | CallReset =>
      Some {| cells := reset (cells m); awaiting := awaiting m |}
  end.

Fixpoint calls (cs : list Call) (m : Machine) : option Machine :=
  match cs with
  | [] => Some m
  | c :: rest =>
      match call c m with
      | Some m' => calls rest m'
      | None => None
      end
  end.

(** The operations that complete at once or complete a run. *)
Definition is_completion (c : Call) : bool :=
  match c with
  | SettleRun _ | CallReset => true
  | CallRun _ => false
  end.

(** The discipline of a caller that starts no run while another one is
    awaiting its answer. *)
Fixpoint one_at_a_time (cs : list Call) (m : Machine) : bool :=
  match cs with
  | [] => true
  | c :: rest =>
      match c with
      | CallRun _ => (awaiting m =? 0)%nat
      | _ => true
      end
      && match call c m with
         | Some m' => one_at_a_time rest m'
         | None => true
         end
  end.

(** What such a caller keeps true: with no run awaiting the cells are
    exclusive; with one awaiting, [result] and [error] are both null. *)
Definition orderly (m : Machine) : Prop :=
  (awaiting m = O /\ exclusive (cells m))
  \/ (awaiting m = 1%nat /\ result (cells m) = None
                          /\ error (cells m) = None).

(** What the two claims about a settled run ask of the cells. *)
Definition settled_as (o : Settled) (s : State) : Prop :=
  match o with
  | Rejected err =>
      error s = Some (error_message err) /\ result s = None
  | Resolved data =>
      result s = Some data /\ error s = None
  end.

End Hook.

(** ** The backtest page *)

Module Page.

(** *** JavaScript helpers *)

(** The simple uppercase mappings of the Unicode Character Database
    (version 14.0), run-length encoded: every [stride]-th code point from
    [first] to [last] maps to itself plus [delta]. *)
Definition upper_runs : list (N * N * N * Z) :=
  [
    ((97, 122, 1)%N, (-32)%Z);
    ((181, 181, 1)%N, 743%Z);
    ((224, 246, 1)%N, (-32)%Z);
    ((248, 254, 1)%N, (-32)%Z);
    ((255, 255, 1)%N, 121%Z);
    ((257, 303, 2)%N, (-1)%Z);
    ((305, 305, 1)%N, (-232)%Z);
    ((307, 311, 2)%N, (-1)%Z);
    ((314, 328, 2)%N, (-1)%Z);
    ((331, 375, 2)%N, (-1)%Z);
    ((378, 382, 2)%N, (-1)%Z);
    ((383, 383, 1)%N, (-300)%Z);
    ((384, 384, 1)%N, 195%Z);
    ((387, 389, 2)%N, (-1)%Z);
    ((392, 392, 1)%N, (-1)%Z);
    ((396, 396, 1)%N, (-1)%Z);
    ((402, 402, 1)%N, (-1)%Z);
    ((405, 405, 1)%N, 97%Z);
    ((409, 409, 1)%N, (-1)%Z);
    ((410, 410, 1)%N, 163%Z);
    ((414, 414, 1)%N, 130%Z);
    ((417, 421, 2)%N, (-1)%Z);
    ((424, 424, 1)%N, (-1)%Z);
    ((429, 429, 1)%N, (-1)%Z);
    ((432, 432, 1)%N, (-1)%Z);
    ((436, 438, 2)%N, (-1)%Z);
    ((441, 441, 1)%N, (-1)%Z);
    ((445, 445, 1)%N, (-1)%Z);
    ((447, 447, 1)%N, 56%Z);
    ((453, 453, 1)%N, (-1)%Z);
    ((454, 454, 1)%N, (-2)%Z);
    ((456, 456, 1)%N, (-1)%Z);
    ((457, 457, 1)%N, (-2)%Z);
    ((459, 459, 1)%N, (-1)%Z);
    ((460, 460, 1)%N, (-2)%Z);
    ((462, 476, 2)%N, (-1)%Z);
    ((477, 477, 1)%N, (-79)%Z);
    ((479, 495, 2)%N, (-1)%Z);
    ((498, 498, 1)%N, (-1)%Z);
    ((499, 499, 1)%N, (-2)%Z);
    ((501, 501, 1)%N, (-1)%Z);
    ((505, 543, 2)%N, (-1)%Z);
    ((547, 563, 2)%N, (-1)%Z);
    ((572, 572, 1)%N, (-1)%Z);
    ((575, 576, 1)%N, 10815%Z);
    ((578, 578, 1)%N, (-1)%Z);
    ((583, 591, 2)%N, (-1)%Z);
    ((592, 592, 1)%N, 10783%Z);
    ((593, 593, 1)%N, 10780%Z);
    ((594, 594, 1)%N, 10782%Z);
    ((595, 595, 1)%N, (-210)%Z);
    ((596, 596, 1)%N, (-206)%Z);
    ((598, 599, 1)%N, (-205)%Z);
    ((601, 601, 1)%N, (-202)%Z);
    ((603, 603, 1)%N, (-203)%Z);
    ((604, 604, 1)%N, 42319%Z);
    ((608, 608, 1)%N, (-205)%Z);
    ((609, 609, 1)%N, 42315%Z);
    ((611, 611, 1)%N, (-207)%Z);
    ((613, 613, 1)%N, 42280%Z);
    ((614, 614, 1)%N, 42308%Z);
    ((616, 616, 1)%N, (-209)%Z);
    ((617, 617, 1)%N, (-211)%Z);
    ((618, 618, 1)%N, 42308%Z);
    ((619, 619, 1)%N, 10743%Z);
    ((620, 620, 1)%N, 42305%Z);
    ((623, 623, 1)%N, (-211)%Z);
    ((625, 625, 1)%N, 10749%Z);
    ((626, 626, 1)%N, (-213)%Z);
    ((629, 629, 1)%N, (-214)%Z);
    ((637, 637, 1)%N, 10727%Z);
    ((640, 640, 1)%N, (-218)%Z);
    ((642, 642, 1)%N, 42307%Z);
    ((643, 643, 1)%N, (-218)%Z);
    ((647, 647, 1)%N, 42282%Z);
    ((648, 648, 1)%N, (-218)%Z);
    ((649, 649, 1)%N, (-69)%Z);
    ((650, 651, 1)%N, (-217)%Z);
    ((652, 652, 1)%N, (-71)%Z);
    ((658, 658, 1)%N, (-219)%Z);
    ((669, 669, 1)%N, 42261%Z);
    ((670, 670, 1)%N, 42258%Z);
    ((837, 837, 1)%N, 84%Z);
    ((881, 883, 2)%N, (-1)%Z);
    ((887, 887, 1)%N, (-1)%Z);
    ((891, 893, 1)%N, 130%Z);
    ((940, 940, 1)%N, (-38)%Z);
    ((941, 943, 1)%N, (-37)%Z);
    ((945, 961, 1)%N, (-32)%Z);
    ((962, 962, 1)%N, (-31)%Z);
    ((963, 971, 1)%N, (-32)%Z);
    ((972, 972, 1)%N, (-64)%Z);
    ((973, 974, 1)%N, (-63)%Z);
    ((976, 976, 1)%N, (-62)%Z);
    ((977, 977, 1)%N, (-57)%Z);
    ((981, 981, 1)%N, (-47)%Z);
    ((982, 982, 1)%N, (-54)%Z);
    ((983, 983, 1)%N, (-8)%Z);
    ((985, 1007, 2)%N, (-1)%Z);
    ((1008, 1008, 1)%N, (-86)%Z);
    ((1009, 1009, 1)%N, (-80)%Z);
    ((1010, 1010, 1)%N, 7%Z);
    ((1011, 1011, 1)%N, (-116)%Z);
    ((1013, 1013, 1)%N, (-96)%Z);
    ((1016, 1016, 1)%N, (-1)%Z);
    ((1019, 1019, 1)%N, (-1)%Z);
    ((1072, 1103, 1)%N, (-32)%Z);
    ((1104, 1119, 1)%N, (-80)%Z);
    ((1121, 1153, 2)%N, (-1)%Z);
    ((1163, 1215, 2)%N, (-1)%Z);
    ((1218, 1230, 2)%N, (-1)%Z);
    ((1231, 1231, 1)%N, (-15)%Z);
    ((1233, 1327, 2)%N, (-1)%Z);
    ((1377, 1414, 1)%N, (-48)%Z);
    ((4304, 4346, 1)%N, 3008%Z);
    ((4349, 4351, 1)%N, 3008%Z);
    ((5112, 5117, 1)%N, (-8)%Z);
    ((7296, 7296, 1)%N, (-6254)%Z);
    ((7297, 7297, 1)%N, (-6253)%Z);
    ((7298, 7298, 1)%N, (-6244)%Z);
    ((7299, 7300, 1)%N, (-6242)%Z);
    ((7301, 7301, 1)%N, (-6243)%Z);
    ((7302, 7302, 1)%N, (-6236)%Z);
    ((7303, 7303, 1)%N, (-6181)%Z);
    ((7304, 7304, 1)%N, 35266%Z);
    ((7545, 7545, 1)%N, 35332%Z);
    ((7549, 7549, 1)%N, 3814%Z);
    ((7566, 7566, 1)%N, 35384%Z);
    ((7681, 7829, 2)%N, (-1)%Z);
    ((7835, 7835, 1)%N, (-59)%Z);
    ((7841, 7935, 2)%N, (-1)%Z);
    ((7936, 7943, 1)%N, 8%Z);
    ((7952, 7957, 1)%N, 8%Z);
    ((7968, 7975, 1)%N, 8%Z);
    ((7984, 7991, 1)%N, 8%Z);
    ((8000, 8005, 1)%N, 8%Z);
    ((8017, 8023, 2)%N, 8%Z);
    ((8032, 8039, 1)%N, 8%Z);
    ((8048, 8049, 1)%N, 74%Z);
    ((8050, 8053, 1)%N, 86%Z);
    ((8054, 8055, 1)%N, 100%Z);
    ((8056, 8057, 1)%N, 128%Z);
    ((8058, 8059, 1)%N, 112%Z);
    ((8060, 8061, 1)%N, 126%Z);
    ((8112, 8113, 1)%N, 8%Z);
    ((8126, 8126, 1)%N, (-7205)%Z);
    ((8144, 8145, 1)%N, 8%Z);
    ((8160, 8161, 1)%N, 8%Z);
    ((8165, 8165, 1)%N, 7%Z);
    ((8526, 8526, 1)%N, (-28)%Z);
    ((8560, 8575, 1)%N, (-16)%Z);
    ((8580, 8580, 1)%N, (-1)%Z);
    ((9424, 9449, 1)%N, (-26)%Z);
    ((11312, 11359, 1)%N, (-48)%Z);
    ((11361, 11361, 1)%N, (-1)%Z);
    ((11365, 11365, 1)%N, (-10795)%Z);
    ((11366, 11366, 1)%N, (-10792)%Z);
    ((11368, 11372, 2)%N, (-1)%Z);
    ((11379, 11379, 1)%N, (-1)%Z);
    ((11382, 11382, 1)%N, (-1)%Z);
    ((11393, 11491, 2)%N, (-1)%Z);
    ((11500, 11502, 2)%N, (-1)%Z);
    ((11507, 11507, 1)%N, (-1)%Z);
    ((11520, 11557, 1)%N, (-7264)%Z);
    ((11559, 11559, 1)%N, (-7264)%Z);
    ((11565, 11565, 1)%N, (-7264)%Z);
    ((42561, 42605, 2)%N, (-1)%Z);
    ((42625, 42651, 2)%N, (-1)%Z);
    ((42787, 42799, 2)%N, (-1)%Z);
    ((42803, 42863, 2)%N, (-1)%Z);
    ((42874, 42876, 2)%N, (-1)%Z);
    ((42879, 42887, 2)%N, (-1)%Z);
    ((42892, 42892, 1)%N, (-1)%Z);
    ((42897, 42899, 2)%N, (-1)%Z);
    ((42900, 42900, 1)%N, 48%Z);
    ((42903, 42921, 2)%N, (-1)%Z);
    ((42933, 42947, 2)%N, (-1)%Z);
    ((42952, 42954, 2)%N, (-1)%Z);
    ((42961, 42961, 1)%N, (-1)%Z);
    ((42967, 42969, 2)%N, (-1)%Z);
    ((42998, 42998, 1)%N, (-1)%Z);
    ((43859, 43859, 1)%N, (-928)%Z);
    ((43888, 43967, 1)%N, (-38864)%Z);
    ((65345, 65370, 1)%N, (-32)%Z);
    ((66600, 66639, 1)%N, (-40)%Z);
    ((66776, 66811, 1)%N, (-40)%Z);
    ((66967, 66977, 1)%N, (-39)%Z);
    ((66979, 66993, 1)%N, (-39)%Z);
    ((66995, 67001, 1)%N, (-39)%Z);
    ((67003, 67004, 1)%N, (-39)%Z);
    ((68800, 68850, 1)%N, (-64)%Z);
    ((71872, 71903, 1)%N, (-32)%Z);
    ((93792, 93823, 1)%N, (-32)%Z);
    ((125218, 125251, 1)%N, (-34)%Z)
  ].

(** The code points whose uppercase is more than one code point (the
    unconditional entries of SpecialCasing, which take precedence). *)
Definition upper_special : list (N * list N) :=
  [
    (223, [83; 83]);
    (329, [700; 78]);
    (496, [74; 780]);
    (912, [921; 776; 769]);
    (944, [933; 776; 769]);
    (1415, [1333; 1362]);
    (7830, [72; 817]);
    (7831, [84; 776]);
    (7832, [87; 778]);
    (7833, [89; 778]);
    (7834, [65; 702]);
    (8016, [933; 787]);
    (8018, [933; 787; 768]);
    (8020, [933; 787; 769]);
    (8022, [933; 787; 834]);
    (8064, [7944; 921]);
    (8065, [7945; 921]);
    (8066, [7946; 921]);
    (8067, [7947; 921]);
    (8068, [7948; 921]);
    (8069, [7949; 921]);
    (8070, [7950; 921]);
    (8071, [7951; 921]);
    (8072, [7944; 921]);
    (8073, [7945; 921]);
    (8074, [7946; 921]);
    (8075, [7947; 921]);
    (8076, [7948; 921]);
    (8077, [7949; 921]);
    (8078, [7950; 921]);
    (8079, [7951; 921]);
    (8080, [7976; 921]);
    (8081, [7977; 921]);
    (8082, [7978; 921]);
    (8083, [7979; 921]);
    (8084, [7980; 921]);
    (8085, [7981; 921]);
    (8086, [7982; 921]);
    (8087, [7983; 921]);
    (8088, [7976; 921]);
    (8089, [7977; 921]);
    (8090, [7978; 921]);
    (8091, [7979; 921]);
    (8092, [7980; 921]);
    (8093, [7981; 921]);
    (8094, [7982; 921]);
    (8095, [7983; 921]);
    (8096, [8040; 921]);
    (8097, [8041; 921]);
    (8098, [8042; 921]);
    (8099, [8043; 921]);
    (8100, [8044; 921]);
    (8101, [8045; 921]);
    (8102, [8046; 921]);
    (8103, [8047; 921]);
    (8104, [8040; 921]);
    (8105, [8041; 921]);
    (8106, [8042; 921]);
    (8107, [8043; 921]);
    (8108, [8044; 921]);
    (8109, [8045; 921]);
    (8110, [8046; 921]);
    (8111, [8047; 921]);
    (8114, [8122; 921]);
    (8115, [913; 921]);
    (8116, [902; 921]);
    (8118, [913; 834]);
    (8119, [913; 834; 921]);
    (8124, [913; 921]);
    (8130, [8138; 921]);
    (8131, [919; 921]);
    (8132, [905; 921]);
    (8134, [919; 834]);
    (8135, [919; 834; 921]);
    (8140, [919; 921]);
    (8146, [921; 776; 768]);
    (8147, [921; 776; 769]);
    (8150, [921; 834]);
    (8151, [921; 776; 834]);
    (8162, [933; 776; 768]);
    (8163, [933; 776; 769]);
    (8164, [929; 787]);
    (8166, [933; 834]);
    (8167, [933; 776; 834]);
    (8178, [8186; 921]);
    (8179, [937; 921]);
    (8180, [911; 921]);
    (8182, [937; 834]);
    (8183, [937; 834; 921]);
    (8188, [937; 921]);
    (64256, [70; 70]);
    (64257, [70; 73]);
    (64258, [70; 76]);
    (64259, [70; 70; 73]);
    (64260, [70; 70; 76]);
    (64261, [83; 84]);
    (64262, [83; 84]);
    (64275, [1348; 1350]);
    (64276, [1348; 1333]);
    (64277, [1348; 1339]);
    (64278, [1358; 1350]);
    (64279, [1348; 1341])
  ]%N.

Definition in_run (c : N) (r : N * N * N * Z) : bool :=
  let '(first, last, stride, _) := r in
  ((first <=? c) && (c <=? last) && ((c - first) mod stride =? 0))%N.

(** The uppercase of one code point. *)
Definition upper_code_point (c : N) : list N :=
  match find (fun e => (fst e =? c)%N) upper_special with
  | Some (_, image) => image
  | None =>
      match find (in_run c) upper_runs with
      | Some (_, delta) => [Z.to_N (Z.of_N c + delta)]
      | None => [c]
      end
  end.

(** [String.prototype.toUpperCase]: every code point of the string is
    replaced by its uppercase, independently of locale and context. *)
Definition toUpperCase (s : Text) : Text := flat_map upper_code_point s.

Definition is_ascii (c : N) : bool := (c <? 128)%N.

Definition is_ascii_lower (c : N) : bool := ((97 <=? c) && (c <=? 122))%N.

(** What uppercasing does to an ASCII character: a to z go to A to Z,
    every other character stays. *)
Definition ascii_upper (c : N) : N :=
  if is_ascii_lower c then (c - 32)%N else c.

(** An ASCII character other than a to z. *)
Definition ascii_capital (c : N) : bool :=
  is_ascii c && negb (is_ascii_lower c).

(** The lowercase letters (general category Ll) of Basic Latin, Latin-1
    Supplement and Latin Extended-A. *)
Definition latin_lowercase (c : N) : bool :=
  (((97 <=? c) && (c <=? 122))
   || (c =? 181)
   || ((223 <=? c) && (c <=? 246))
   || ((248 <=? c) && (c <=? 255))
   || ((257 <=? c) && (c <=? 311) && N.odd c)
   || ((312 <=? c) && (c <=? 328) && N.even c)
   || ((329 <=? c) && (c <=? 375) && N.odd c)
   || ((378 <=? c) && (c <=? 382) && N.even c)
   || (c =? 383))%N.

Definition no_lowercase (s : Text) : bool :=
  forallb (fun c => negb (latin_lowercase c)) s.

(** Truthiness of a [string | null]. *)
Definition truthy_string (v : option string) : bool :=
  match v with
  | Some EmptyString => false
  | Some _ => true
  | None => false
  end.

(** The [value] of an [<input type="number">]: the empty string ([None])
    or a valid number ([Some]). [Number(e.target.value)] of the empty
    string is 0. *)
Definition Number (v : option Q) : Q :=
  match v with
  | Some q => q
  | None => 0
  end.

(** [e.target.value ? Number(e.target.value) : null] *)
Definition number_or_null (v : option Q) : option Q :=
  match v with
  | Some q => Some q
  | None => None
  end.

(** [x || ""] for [x : number | null]: 0 and [null] both give the empty
    string. *)
Definition or_empty (x : option Q) : option Q :=
  match x with
  | Some q => if Qeq_bool q 0 then None else Some q
  | None => None
  end.

Definition is_integer (q : Q) : bool :=
  (Qnum q mod Zpos (Qden q) =? 0)%Z.

(** Constraint validation of a number input that is not [required]:
    [min], optional [max], and [step] counted from [min]. *)
Definition number_input_valid (min : Q) (max : option Q) (step : Q)
    (shown : option Q) : bool :=
  match shown with
  | None => true
  | Some v =>
      Qle_bool min v
      && match max with Some m => Qle_bool v m | None => true end
      && is_integer ((v - min) / step)
  end.

(** *** Form state updates (the [onChange] handlers) *)

Definition set_strategy_type (v : string) (c : BacktestConfig) :=
  {| strategy_type := v; ticker := ticker c;
     start_date := start_date c; end_date := end_date c;
     initial_capital := initial_capital c; position_size := position_size c;
     commission := commission c; slippage := slippage c;
     stop_loss := stop_loss c; take_profit := take_profit c |}.

Definition set_ticker (v : Text) (c : BacktestConfig) :=
  {| strategy_type := strategy_type c; ticker := v;
     start_date := start_date c; end_date := end_date c;
     initial_capital := initial_capital c; position_size := position_size c;
     commission := commission c; slippage := slippage c;
     stop_loss := stop_loss c; take_profit := take_profit c |}.

Definition set_start_date (v : string) (c : BacktestConfig) :=
  {| strategy_type := strategy_type c; ticker := ticker c;
     start_date := v; end_date := end_date c;
     initial_capital := initial_capital c; position_size := position_size c;
     commission := commission c; slippage := slippage c;
     stop_loss := stop_loss c; take_profit := take_profit c |}.

Definition set_end_date (v : string) (c : BacktestConfig) :=
  {| strategy_type := strategy_type c; ticker := ticker c;
     start_date := start_date c; end_date := v;
     initial_capital := initial_capital c; position_size := position_size c;
     commission := commission c; slippage := slippage c;
     stop_loss := stop_loss c; take_profit := take_profit c |}.

Definition set_initial_capital (v : Q) (c : BacktestConfig) :=
  {| strategy_type := strategy_type c; ticker := ticker c;
     start_date := start_date c; end_date := end_date c;
     initial_capital := v; position_size := position_size c;
     commission := commission c; slippage := slippage c;
     stop_loss := stop_loss c; take_profit := take_profit c |}.

Definition set_position_size (v : Q) (c : BacktestConfig) :=
  {| strategy_type := strategy_type c; ticker := ticker c;
     start_date := start_date c; end_date := end_date c;
     initial_capital := initial_capital c; position_size := v;
     commission := commission c; slippage := slippage c;
     stop_loss := stop_loss c; take_profit := take_profit c |}.

Definition set_stop_loss (v : option Q) (c : BacktestConfig) :=
  {| strategy_type := strategy_type c; ticker := ticker c;
     start_date := start_date c; end_date := end_date c;
     initial_capital := initial_capital c; position_size := position_size c;
     commission := commission c; slippage := slippage c;
     stop_loss := v; take_profit := take_profit c |}.

Definition set_take_profit (v : option Q) (c : BacktestConfig) :=
  {| strategy_type := strategy_type c; ticker := ticker c;
     start_date := start_date c; end_date := end_date c;
     initial_capital := initial_capital c; position_size := position_size c;
     commission := commission c; slippage := slippage c;
     stop_loss := stop_loss c; take_profit := v |}.

(** The initial form state. *)
Definition default_config : BacktestConfig :=
  {| strategy_type := "buy_hold"; ticker := text "AAPL";
     start_date := "2023-01-01"; end_date := "2024-01-01";
     initial_capital := 100000; position_size := 1;
     commission := 1 # 1000; slippage := 1 # 1000;
     stop_loss := None; take_profit := None |}.

(** *** The strategy [<select>] *)

Record OptionElement := {
  value : string;
  label : string
}.

(** [<option>Loading...</option>]: without a [value] attribute the value
    is the text. *)
Definition loading_option : OptionElement :=
  {| value := "Loading..."; label := "Loading..." |}.

Definition strategy_option (s : StrategyInfo) : OptionElement :=
  {| value := name s; label := display_name s |}.

(** The children of the [<select>]. *)
Definition strategy_options (strategiesLoading : bool)
    (strategiesData : option StrategiesResponse) : list OptionElement :=
  if strategiesLoading then [loading_option]
  else match strategiesData with
       | Some d => map strategy_option (strategies d)
       | None => []
       end.

(** *** Page state and events *)

Record State := {
  config : BacktestConfig;
  hook : Hook.State;
  strategiesLoading : bool;
  strategiesData : option StrategiesResponse;
  (** [run] calls awaiting their [runBacktest] promise *)
  pending : nat;
  (** every config handed to [run], latest first *)
  submitted : list BacktestConfig
}.

Definition initial : State :=
  {| config := default_config; hook := Hook.initial;
     strategiesLoading := true; strategiesData := None;
     pending := 0; submitted := [] |}.

Definition with_config (f : BacktestConfig -> BacktestConfig) (st : State) :=
  {| config := f (config st); hook := hook st;
     strategiesLoading := strategiesLoading st;
     strategiesData := strategiesData st;
     pending := pending st; submitted := submitted st |}.

(** Constraint validation of the whole form (no field is [required]; the
    text, date and select controls carry no constraint). *)
Definition form_valid (c : BacktestConfig) : bool :=
  number_input_valid 1000 None 1000 (Some (initial_capital c))
  && number_input_valid (1 # 10) (Some 1) (1 # 10) (Some (position_size c))
  && number_input_valid (1 # 100) (Some 1) (1 # 100) (or_empty (stop_loss c))
  && number_input_valid (1 # 100) (Some 5) (1 # 100) (or_empty (take_profit c)).

Inductive Event :=
| StrategiesLoaded (d : StrategiesResponse)
| StrategiesFailed
| SelectStrategy (v : string)
| TypeTicker (v : Text)
| PickStartDate (v : string)
| PickEndDate (v : string)
| TypeInitialCapital (v : option Q)
| TypePositionSize (v : option Q)
| TypeStopLoss (v : option Q)
| TypeTakeProfit (v : option Q)
| PressSubmit
| Settle (o : Hook.Settled)
| ClickReset.

Definition string_in (v : string) (l : list string) : bool :=
  existsb (String.eqb v) l.

(** One event; [None] when the page does not offer it in this state. *)
Definition step (ev : Event) (st : State) : option State :=
  match ev with
  | StrategiesLoaded d =>
      Some {| config := config st; hook := hook st;
              strategiesLoading := false; strategiesData := Some d;
              pending := pending st; submitted := submitted st |}
  | StrategiesFailed =>
      Some {| config := config st; hook := hook st;
              strategiesLoading := false; strategiesData := strategiesData st;
              pending := pending st; submitted := submitted st |}
  | SelectStrategy v =>
      if string_in v (map value (strategy_options (strategiesLoading st)
                                                   (strategiesData st)))
      then Some (with_config (set_strategy_type v) st)
      else None
  | TypeTicker v => Some (with_config (set_ticker (toUpperCase v)) st)
  | PickStartDate v => Some (with_config (set_start_date v) st)
  | PickEndDate v => Some (with_config (set_end_date v) st)
  | TypeInitialCapital v =>
      Some (with_config (set_initial_capital (Number v)) st)
  | TypePositionSize v =>
      Some (with_config (set_position_size (Number v)) st)
  | TypeStopLoss v => Some (with_config (set_stop_loss (number_or_null v)) st)
  | TypeTakeProfit v =>
      Some (with_config (set_take_profit (number_or_null v)) st)
  | PressSubmit =>
      (* the button is [disabled={isRunning}]; the browser validates the
         form before [handleSubmit] runs [await run(config)] *)
      if negb (Hook.isRunning (hook st)) && form_valid (config st)
      then Some {| config := config st; hook := Hook.run_start (hook st);
                   strategiesLoading := strategiesLoading st;
                   strategiesData := strategiesData st;
                   pending := S (pending st);
                   submitted := config st :: submitted st |}
      else None
  | Settle o =>
      match pending st with
      | O => None
      | S n =>
          Some {| config := config st;
                  hook := fst (Hook.run_settle o (hook st));
                  strategiesLoading := strategiesLoading st;
                  strategiesData := strategiesData st;
                  pending := n; submitted := submitted st |}
      end
  | ClickReset =>
      (* the Reset button is rendered only under [result && ...] *)
      match Hook.result (hook st) with
      | Some _ =>
          Some {| config := config st; hook := Hook.reset (hook st);
                  strategiesLoading := strategiesLoading st;
                  strategiesData := strategiesData st;
                  pending := pending st; submitted := submitted st |}
      | None => None
      end
  end.

Fixpoint exec (evs : list Event) (st : State) : option State :=
  match evs with
  | [] => Some st
  | ev :: rest =>
      match step ev st with
      | Some st' => exec rest st'
      | None => None
      end
  end.

Definition reachable (st : State) : Prop :=
  exists evs, exec evs initial = Some st.

(** *** The results column of the render function *)

Inductive Panel :=
| ErrorBanner (message : string)
| PerformanceMetrics (r : BacktestResult)
| TradesTable (rows : list Trade)
| NoTradesMessage
| EmptyPrompt.

Definition results_panel (h : Hook.State) : list Panel :=
  (if truthy_string (Hook.error h)
   then match Hook.error h with
        | Some message => [ErrorBanner message]
        | None => []
        end
   else [])
  ++ match Hook.result h with
     | Some r =>
         PerformanceMetrics r
         :: (if (0 <? List.length (trades r))%nat
             then [TradesTable (trades r)] else [])
         ++ (if (List.length (trades r) =? 0)%nat then [NoTradesMessage] else [])
     | None => [EmptyPrompt]
     end.


(** What the claim about the optional fields asks of a submitted config. *)
Definition open_unit_fraction (x : option Q) : Prop :=
  match x with
  | None => True
  | Some q => 0 < q /\ q < 1
  end.

Definition positive_or_null (x : option Q) : Prop :=
  match x with
  | None => True
  | Some q => 0 < q
  end.

(** *** Invariants of the event loop *)

(** Either no [run] is awaiting and the hook state is exclusive and
    idle, or exactly one is, and the hook is in the state [run_start]
    leaves. *)
Definition hook_inv (st : State) : Prop :=
  (pending st = O
   /\ Hook.isRunning (hook st) = false
   /\ Hook.exclusive (hook st))
  \/ (pending st = 1%nat
      /\ hook st = {| Hook.isRunning := true; Hook.result := None;
                      Hook.error := None |}).

(** Every config handed to [run] passed the form's constraint
    validation. *)
Definition submitted_valid (st : State) : Prop :=
  Forall (fun c => form_valid c = true) (submitted st).

(** The ticker in the form and in every config handed to [run] is made
    of ASCII characters other than a to z. *)
Definition tickers_upper (st : State) : Prop :=
  forallb ascii_capital (ticker (config st)) = true
  /\ Forall (fun c => forallb ascii_capital (ticker c) = true)
       (submitted st).

(** The ticker in the form and in every config handed to [run] is the
    uppercase image of some text. *)
Definition upper_image (t : Text) : Prop := exists v, t = toUpperCase v.

Definition tickers_images (st : State) : Prop :=
  upper_image (ticker (config st))
  /\ Forall (fun c => upper_image (ticker c)) (submitted st).

(** The events that type nothing but ASCII into the Ticker field. *)
Definition ascii_event (ev : Event) : bool :=
  match ev with
  | TypeTicker v => forallb is_ascii v
  | _ => true
  end.

Definition ascii_typing (evs : list Event) : bool := forallb ascii_event evs.

End Page.

(** ** The buttons of the form *)

Module Controls.

Record Button := {
  disabled : bool;
  caption : string
}.

(** The submit button: [disabled={isRunning}], captioned
    [isRunning ? "Running..." : "Run Backtest"]. *)
Definition submit_button (h : Hook.State) : Button :=
  {| disabled := Hook.isRunning h;
     caption := if Hook.isRunning h then "Running..." else "Run Backtest" |}.

(** The Reset button, rendered under [result && ...]. *)
Definition reset_button (h : Hook.State) : option Button :=
  match Hook.result h with
  | Some _ => Some {| disabled := false; caption := "Reset" |}
  | None => None
  end.

(** The events that come from the form controls' [onChange] handlers. *)
Definition is_edit (ev : Page.Event) : bool :=
  match ev with
  | Page.SelectStrategy _
  | Page.TypeTicker _
  | Page.PickStartDate _
  | Page.PickEndDate _
  | Page.TypeInitialCapital _
  | Page.TypePositionSize _
  | Page.TypeStopLoss _
  | Page.TypeTakeProfit _ => true
  | _ => false
  end.

(** The form leaves commission and slippage at their initial values. *)
Definition default_costs (c : BacktestConfig) : Prop :=
  commission c = 1 # 1000 /\ slippage c = 1 # 1000.

Definition costs_fixed (st : Page.State) : Prop :=
  default_costs (Page.config st)
  /\ Forall default_costs (Page.submitted st).

End Controls.

(** ** Sample page scenarios *)

Module Scenarios.

(** A result without trades on the default capital. *)
Definition idle_result : BacktestResult :=
  {| final_value := 100000; total_return := 0; annual_return := 0;
     volatility := 0; sharpe_ratio := 0; max_drawdown := 0;
     total_trades := 0; win_rate := 0; benchmark_return := 4 # 100;
     alpha := - (4 # 100); trades := [] |}.

(** The default form is submitted and the call is still pending. *)
Definition submit_only : list Page.Event := [Page.PressSubmit].

(** The default form is submitted and the call fails. *)
Definition submit_fails : list Page.Event :=
  [Page.PressSubmit;
   Page.Settle (Hook.Rejected (Hook.ErrorObject "HTTP 500"))].

(** The default form is submitted and the call answers [idle_result]. *)
Definition submit_succeeds : list Page.Event :=
  [Page.PressSubmit; Page.Settle (Hook.Resolved idle_result)].

(** A lowercase ticker is typed, then the form is submitted. *)
Definition type_and_submit : list Page.Event :=
  [Page.TypeTicker (text "msft"); Page.PressSubmit].

End Scenarios.

(** ** Sample inputs *)

Module Examples.

(** Coarse rational stand-ins for the square root and the power function
    of the numeric library, to run the analyzer on sample inputs: the
    square root to six decimals, the power at the integer part of the
    exponent. *)
Definition sqrt_q (x : Q) : Q :=
  Z.sqrt (Qnum x * 1000000000000 / Zpos (Qden x)) # 1000000.

Definition pow_q (x y : Q) : Q := Qpower x (Qfloor y).

Definition flat_bar (d : Date) (price : Q) : Engine.Bar :=
  {| Engine.date := d; Engine.open := price; Engine.high := price;
     Engine.low := price; Engine.close := price; Engine.volume := 1000 |}.

(** The three-bar scenario of the spec: closes 100, 110, 90. *)
Definition three_bars : list Engine.Bar :=
  [flat_bar 1%Z 100; flat_bar 2%Z 110; flat_bar 3%Z 90].


(** Buy-and-hold on 100000 with no costs, [size] of the capital in the
    position. *)
Definition buy_hold_config (size : Q) : Engine.Config :=
  {| Engine.strategy := Engine.BuyHold;
     Engine.ticker := "AAPL";
     Engine.start_date := 1%Z;
     Engine.end_date := 3%Z;
     Engine.initial_capital := 100000;
     Engine.position_size := size;
     Engine.commission := 0;
     Engine.slippage := 0;
     Engine.stop_loss := None;
     Engine.take_profit := None |}.


Definition sample_strategies : StrategiesResponse :=
  {| strategies :=
       [ {| name := "buy_hold"; display_name := "Buy and Hold" |};
         {| name := "ma_crossover"; display_name := "MA Crossover" |} ] |}.

End Examples.

(** ** Edge cases of the engine *)

Module EdgeCases.




End EdgeCases.

(** * Properties of the hook *)

Section HookProperties.

Import Hook.

Lemma run_start_state (s : State) :
  run_start s = {| isRunning := true; result := None; error := None |}.
Proof. reflexivity. Qed.

Lemma run_resolved_state (data : BacktestResult) (s : State) :
  fst (run_settle (Resolved data) (run_start s))
  = {| isRunning := false; result := Some data; error := None |}.
Proof. reflexivity. Qed.

Lemma run_rejected_state (err : Thrown) (s : State) :
  fst (run_settle (Rejected err) (run_start s))
  = {| isRunning := false; result := None;
       error := Some (error_message err) |}.
Proof. reflexivity. Qed.

Lemma reset_state (s : State) : reset s = initial.
Proof. reflexivity. Qed.

Lemma orderly_call (c : Call) (m m' : Machine) :
  orderly m ->
  one_at_a_time [c] m = true ->
  call c m = Some m' ->
  orderly m'.
Proof.
  intros Hord Hone Hcall.
  destruct c as [config | o |]; cbn in Hone, Hcall.
  - injection Hcall as <-. right. cbn.
    rewrite andb_true_r in Hone. apply Nat.eqb_eq in Hone.
    rewrite Hone. repeat split.
  - destruct (awaiting m) as [|n] eqn:Hn; [discriminate|].
    injection Hcall as <-.
    destruct Hord as [(H0 & _) | (H1 & Hres & Herr)]; [congruence|].
    left. cbn. split; [congruence|].
    destruct o; cbn; [right | left]; assumption.
  - injection Hcall as <-.
    destruct Hord as [(H0 & _) | (H1 & _)].
    + left. cbn. split; [assumption | now left].
    + right. cbn. repeat split. assumption.
Qed.

Lemma orderly_calls (cs : list Call) :
  forall m m',
    orderly m ->
    one_at_a_time cs m = true ->
    calls cs m = Some m' ->
    orderly m'.
Proof.
  induction cs as [|c cs IH]; intros m m' Hord Hone Hcalls.
  - injection Hcalls as <-. exact Hord.
  - cbn [calls] in Hcalls. cbn [one_at_a_time] in Hone.
    destruct (call c m) as [m1|] eqn:Hcall; [|discriminate].
    apply andb_prop in Hone. destruct Hone as [Hc Hrest].
    apply (IH m1 m'); [|assumption..].
    apply (orderly_call c m m1 Hord); [|exact Hcall].
    cbn [one_at_a_time]. rewrite Hc, Hcall. reflexivity.
Qed.

Lemma orderly_boot : orderly boot.
Proof. left. split; [reflexivity | now left]. Qed.

Lemma orderly_settle (o : Settled) (m m' : Machine) :
  orderly m -> call (SettleRun o) m = Some m' -> settled_as o (cells m').
Proof.
  intros Hord Hcall. cbn in Hcall.
  destruct (awaiting m) as [|n] eqn:Hn; [discriminate|].
  injection Hcall as <-.
  destruct Hord as [(H0 & _) | (_ & Hres & Herr)]; [congruence|].
  destruct o; cbn; split; try reflexivity; assumption.
Qed.

(** C4, as the hook has it. Whatever else the caller did in the
    meantime, a [run] whose [runBacktest] call rejects leaves the message
    of the thrown [Error] in [error] (the fixed text for a thrown value
    that is no [Error]), leaves [isRunning] false and re-throws the same
    value, and a [run] whose call resolves leaves the data in [result]
    and returns it. For a caller that starts no run while another is
    awaiting, [result] is null after the rejection and [error] is null
    after the resolution. *)
Theorem run_surfaces_outcome :
  (forall s err,
     let (s', completion) := run_settle (Rejected err) s in
     error s' = Some (error_message err)
     /\ (forall message, err = ErrorObject message ->
           error s' = Some message)
     /\ error s' <> None
     /\ isRunning s' = false
     /\ completion = Threw err)
  /\ (forall s data,
     let (s', completion) := run_settle (Resolved data) s in
     result s' = Some data
     /\ isRunning s' = false
     /\ completion = Returned data)
  /\ (forall cs m o m',
        one_at_a_time cs boot = true ->
        calls cs boot = Some m ->
        call (SettleRun o) m = Some m' ->
        settled_as o (cells m')).
Proof.
  split; [|split].
  - intros s err. cbn. repeat split; try discriminate.
    intros message ->. reflexivity.
  - intros s data. cbn. repeat split.
  - intros cs m o m' Hone Hcalls Hsettle.
    apply (orderly_settle o m m'); [|exact Hsettle].
    exact (orderly_calls cs boot m orderly_boot Hone Hcalls).
Qed.

(** C10. [reset] gives the initial state whatever the state before, and
    a second [reset] changes nothing. *)
Theorem reset_restores_initial (s : State) :
  reset s = {| isRunning := false; result := None; error := None |}
  /\ reset s = initial
  /\ reset (reset s) = reset s.
Proof. repeat split. Qed.

End HookProperties.

(** * Properties of the page *)

Section PageProperties.

Import Page.

(** ** The hook state along the page's event sequences *)

Lemma hook_inv_initial : hook_inv initial.
Proof. left. cbn. repeat split. now left. Qed.

Lemma settle_exclusive (o : Hook.Settled) (s : Hook.State) :
  Hook.exclusive (fst (Hook.run_settle o (Hook.run_start s))).
Proof. destruct o; [right | left]; reflexivity. Qed.

Lemma hook_inv_step (ev : Event) (st st' : State) :
  hook_inv st -> step ev st = Some st' -> hook_inv st'.
Proof.
  intros Hinv Hstep.
  destruct ev; cbn in Hstep;
    try (injection Hstep as <-; exact Hinv).
  - (* SelectStrategy *)
    destruct (string_in _ _); [|discriminate].
    injection Hstep as <-. exact Hinv.
  - (* PressSubmit *)
    destruct (negb (Hook.isRunning (hook st))) eqn:Hidle; [|discriminate].
    destruct (form_valid (config st)); [|discriminate].
    injection Hstep as <-. cbn.
    destruct Hinv as [(Hp & _ & _) | (_ & Hh)].
    + right. cbn. rewrite Hp. split; reflexivity.
    + rewrite Hh in Hidle. discriminate.
  - (* Settle *)
    destruct (pending st) as [|n] eqn:Hp; [discriminate|].
    injection Hstep as <-.
    destruct Hinv as [(Hp' & _) | (Hp' & Hh)]; [congruence|].
    left. cbn. rewrite Hh.
    assert (n = O) by congruence. subst n.
    repeat split.
    + destruct o; reflexivity.
    + exact (settle_exclusive o Hook.initial).
  - (* ClickReset *)
    destruct (Hook.result (hook st)) eqn:Hres; [|discriminate].
    injection Hstep as <-.
    destruct Hinv as [(Hp & _) | (_ & Hh)].
    + left. cbn. repeat split; [exact Hp | now left].
    + rewrite Hh in Hres. discriminate.
Qed.

Lemma exec_preserves (P : State -> Prop) :
  (forall ev st st', P st -> step ev st = Some st' -> P st') ->
  forall evs st st', P st -> exec evs st = Some st' -> P st'.
Proof.
  intros Hstep evs. induction evs as [|ev evs IH]; intros st st' HP Hexec.
  - injection Hexec as <-. exact HP.
  - cbn in Hexec. destruct (step ev st) as [st1|] eqn:H1; [|discriminate].
    eapply IH; [|exact Hexec]. eapply Hstep; eassumption.
Qed.

Lemma reachable_hook_inv (st : State) : reachable st -> hook_inv st.
Proof.
  intros [evs Hexec].
  exact (exec_preserves hook_inv hook_inv_step evs _ _ hook_inv_initial Hexec).
Qed.

(** On the page at most one [run] is pending at any time: the submit
    button is disabled while [isRunning]. *)
Lemma runs_do_not_overlap (st : State) :
  reachable st -> (pending st <= 1)%nat.
Proof.
  intros Hreach.
  destruct (reachable_hook_inv st Hreach) as [(Hp & _) | (Hp & _)];
    rewrite Hp; lia.
Qed.

(** C8, as the hook has it. For a caller that starts no run while
    another is awaiting its answer, at most one of [result] and [error]
    is non-null after every operation: a resolved run leaves [error]
    null, a rejected run leaves [result] null, [run] clears both before
    it awaits, [reset] clears both; and the page is such a caller, so
    every hook state it can reach is exclusive. *)
Theorem result_error_exclusive :
  (forall cs m,
     Hook.one_at_a_time cs Hook.boot = true ->
     Hook.calls cs Hook.boot = Some m ->
     Hook.exclusive (Hook.cells m))
  /\ (forall o s, Hook.exclusive (fst (Hook.run_settle o (Hook.run_start s))))
  /\ (forall data s,
        Hook.error (fst (Hook.run_settle (Hook.Resolved data)
                           (Hook.run_start s))) = None)
  /\ (forall err s,
        Hook.result (fst (Hook.run_settle (Hook.Rejected err)
                            (Hook.run_start s))) = None)
  /\ (forall s, Hook.result (Hook.run_start s) = None
                /\ Hook.error (Hook.run_start s) = None)
  /\ (forall s, Hook.exclusive (Hook.reset s))
  /\ (forall st, reachable st -> Hook.exclusive (hook st)).
Proof.
  split.
  { intros cs m Hone Hcalls.
    destruct (orderly_calls cs Hook.boot m orderly_boot Hone Hcalls)
      as [(_ & Hex) | (_ & Hres & _)]; [exact Hex | now left]. }
  split; [exact settle_exclusive|].
  split; [reflexivity|].
  split; [reflexivity|].
  split; [split; reflexivity|].
  split; [intros s; now left|].
  intros st Hreach.
  destruct (reachable_hook_inv st Hreach) as [(_ & _ & Hex) | (_ & Hh)].
  - exact Hex.
  - rewrite Hh. now left.
Qed.


(** ** The ticker field *)

Lemma ascii_check (P : N -> bool) :
  forallb P (map N.of_nat (seq 0 128)) = true ->
  forall c, is_ascii c = true -> P c = true.
Proof.
  intros Hall c Hc. rewrite forallb_forall in Hall. apply Hall.
  apply N.ltb_lt in Hc.
  rewrite <- (N2Nat.id c). apply in_map. apply in_seq. lia.
Qed.

Lemma upper_code_point_ascii (c : N) :
  is_ascii c = true -> upper_code_point c = [ascii_upper c].
Proof.
  intros Hc.
  pose proof (ascii_check
                (fun c => match upper_code_point c with
                          | [d] => (d =? ascii_upper c)%N
                          | _ => false
                          end)
                ltac:(vm_compute; reflexivity) c Hc) as Hcheck.
  cbv beta in Hcheck.
  destruct (upper_code_point c) as [|d [|]]; try discriminate.
  apply N.eqb_eq in Hcheck. now subst d.
Qed.

Lemma ascii_upper_capital (c : N) :
  is_ascii c = true -> ascii_capital (ascii_upper c) = true.
Proof.
  exact (ascii_check (fun c => ascii_capital (ascii_upper c))
           ltac:(vm_compute; reflexivity) c).
Qed.

Lemma ascii_capital_not_lowercase (c : N) :
  ascii_capital c = true -> latin_lowercase c = false.
Proof.
  intros Hcap.
  assert (Hc : is_ascii c = true)
    by (unfold ascii_capital in Hcap; now apply andb_prop in Hcap).
  pose proof (ascii_check
                (fun c => implb (ascii_capital c) (negb (latin_lowercase c)))
                ltac:(vm_compute; reflexivity) c Hc) as Hcheck.
  cbv beta in Hcheck. rewrite Hcap in Hcheck. cbn in Hcheck.
  now apply negb_true_iff.
Qed.

Lemma ascii_capital_fixed (c : N) :
  ascii_capital c = true -> ascii_upper c = c.
Proof.
  unfold ascii_capital, ascii_upper. intros Hcap.
  apply andb_prop in Hcap. destruct Hcap as [_ Hnot].
  apply negb_true_iff in Hnot. now rewrite Hnot.
Qed.

Lemma toUpperCase_ascii (v : Text) :
  forallb is_ascii v = true -> toUpperCase v = map ascii_upper v.
Proof.
  induction v as [|c v IH]; cbn; [reflexivity|].
  intros Hall. apply andb_prop in Hall. destruct Hall as [Hc Hv].
  fold (toUpperCase v). now rewrite (upper_code_point_ascii c Hc), IH.
Qed.

Lemma toUpperCase_ascii_capital (v : Text) :
  forallb is_ascii v = true -> forallb ascii_capital (toUpperCase v) = true.
Proof.
  intros Hall. rewrite (toUpperCase_ascii v Hall).
  induction v as [|c v IH]; cbn; [reflexivity|].
  cbn in Hall. apply andb_prop in Hall. destruct Hall as [Hc Hv].
  now rewrite (ascii_upper_capital c Hc), IH.
Qed.

Lemma capital_no_lowercase (t : Text) :
  forallb ascii_capital t = true -> no_lowercase t = true.
Proof.
  unfold no_lowercase.
  induction t as [|c t IH]; cbn; [reflexivity|].
  intros Hall. apply andb_prop in Hall. destruct Hall as [Hc Ht].
  now rewrite (ascii_capital_not_lowercase c Hc), IH.
Qed.

Lemma toUpperCase_fixed (t : Text) :
  forallb ascii_capital t = true -> toUpperCase t = t.
Proof.
  intros Hcap.
  assert (Hascii : forallb is_ascii t = true).
  { induction t as [|c t IH]; cbn; [reflexivity|].
    cbn in Hcap. apply andb_prop in Hcap. destruct Hcap as [Hc Ht].
    unfold ascii_capital in Hc. apply andb_prop in Hc.
    destruct Hc as [Hc _]. now rewrite Hc, IH. }
  rewrite (toUpperCase_ascii t Hascii).
  induction t as [|c t IH]; cbn; [reflexivity|].
  cbn in Hcap, Hascii.
  apply andb_prop in Hcap. destruct Hcap as [Hc Ht].
  apply andb_prop in Hascii. destruct Hascii as [_ Ha].
  now rewrite (ascii_capital_fixed c Hc), IH.
Qed.

Lemma exec_preserves_when (P : State -> Prop) (ok : Event -> bool) :
  (forall ev st st', ok ev = true -> P st -> step ev st = Some st' -> P st') ->
  forall evs st st',
    forallb ok evs = true -> P st -> exec evs st = Some st' -> P st'.
Proof.
  intros Hstep evs. induction evs as [|ev evs IH]; intros st st' Hok HP Hexec.
  - injection Hexec as <-. exact HP.
  - cbn in Hok, Hexec. apply andb_prop in Hok. destruct Hok as [Hev Hrest].
    destruct (step ev st) as [st1|] eqn:H1; [|discriminate].
    eapply IH; [exact Hrest | | exact Hexec].
    eapply Hstep; eassumption.
Qed.

Lemma tickers_upper_step (ev : Event) (st st' : State) :
  ascii_event ev = true ->
  tickers_upper st -> step ev st = Some st' -> tickers_upper st'.
Proof.
  intros Hascii [Hcfg Hsub] Hstep.
  destruct ev; cbn in Hstep;
    try (injection Hstep as <-; split; assumption).
  - destruct (string_in _ _); [|discriminate].
    injection Hstep as <-. split; assumption.
  - injection Hstep as <-. split; [|assumption].
    cbn. now apply toUpperCase_ascii_capital.
  - destruct (negb _ && _)%bool; [|discriminate].
    injection Hstep as <-. split; [assumption|].
    cbn. constructor; assumption.
  - destruct (pending st); [discriminate|].
    injection Hstep as <-. split; assumption.
  - destruct (Hook.result (hook st)); [|discriminate].
    injection Hstep as <-. split; assumption.
Qed.

Lemma tickers_upper_initial : tickers_upper initial.
Proof. split; [reflexivity | constructor]. Qed.

Lemma tickers_images_step (ev : Event) (st st' : State) :
  tickers_images st -> step ev st = Some st' -> tickers_images st'.
Proof.
  intros [Hcfg Hsub] Hstep.
  destruct ev; cbn in Hstep;
    try (injection Hstep as <-; split; assumption).
  - destruct (string_in _ _); [|discriminate].
    injection Hstep as <-. split; assumption.
  - injection Hstep as <-. split; [|assumption].
    cbn. now exists v.
  - destruct (negb _ && _)%bool; [|discriminate].
    injection Hstep as <-. split; [assumption|].
    cbn. constructor; assumption.
  - destruct (pending st); [discriminate|].
    injection Hstep as <-. split; assumption.
  - destruct (Hook.result (hook st)); [|discriminate].
    injection Hstep as <-. split; assumption.
Qed.

(** C9, as the page has it. Typing [v] into the Ticker field stores the
    uppercase image of [v] in the config, and every ticker handed to
    [run] is such an image. On ASCII text the image has a to z replaced
    by A to Z and every other character unchanged, so it has the length
    of [v] and no lowercase letter; hence, as long as only ASCII is typed,
    no config handed to [run] has a lowercase letter in its ticker. *)
Theorem ticker_is_uppercased :
  (forall v st, exists st',
      step (TypeTicker v) st = Some st'
      /\ ticker (config st') = toUpperCase v)
  /\ (forall st, reachable st ->
        forall c, In c (submitted st) ->
        exists v, ticker c = toUpperCase v)
  /\ (forall v, forallb is_ascii v = true ->
        toUpperCase v = map ascii_upper v
        /\ List.length (toUpperCase v) = List.length v
        /\ no_lowercase (toUpperCase v) = true)
  /\ (forall evs st,
        ascii_typing evs = true ->
        exec evs initial = Some st ->
        forall c, In c (submitted st) -> no_lowercase (ticker c) = true).
Proof.
  split; [intros v st; eexists; split; reflexivity|].
  split; [|split].
  - intros st [evs Hexec] c Hin.
    assert (Hinit : tickers_images initial).
    { split; [|constructor]. exists (text "aapl"). reflexivity. }
    destruct (exec_preserves tickers_images tickers_images_step
                evs _ _ Hinit Hexec) as [_ Hsub].
    rewrite Forall_forall in Hsub. exact (Hsub c Hin).
  - intros v Hascii. split; [now apply toUpperCase_ascii|].
    split.
    + rewrite (toUpperCase_ascii v Hascii). apply length_map.
    + apply capital_no_lowercase. now apply toUpperCase_ascii_capital.
  - intros evs st Hascii Hexec c Hin.
    destruct (exec_preserves_when tickers_upper ascii_event
                tickers_upper_step evs _ _ Hascii tickers_upper_initial
                Hexec) as [_ Hsub].
    rewrite Forall_forall in Hsub.
    apply capital_no_lowercase. exact (Hsub c Hin).
Qed.

(** ** The strategy select *)

(** C7. Once the strategies query has answered, the options of the
    select are the entries of the answer, in order, one option per
    entry, with the entry's [name] as value and its [display_name] as
    label; the only option that is not an entry of the answer is the
    placeholder shown while the query is loading. *)
Theorem strategy_options_from_query :
  (forall d, strategy_options false (Some d)
             = map strategy_option (strategies d))
  /\ (forall s, value (strategy_option s) = name s
                /\ label (strategy_option s) = display_name s)
  /\ (forall loading data o,
        In o (strategy_options loading data) ->
        (loading = true /\ o = loading_option)
        \/ (exists d s, data = Some d /\ In s (strategies d)
                        /\ value o = name s
                        /\ label o = display_name s)).
Proof.
  split; [reflexivity|].
  split; [split; reflexivity|].
  intros loading data o Hin. unfold strategy_options in Hin.
  destruct loading.
  - left. destruct Hin as [<- | []]. split; reflexivity.
  - right. destruct data as [d|]; [|contradiction].
    apply in_map_iff in Hin. destruct Hin as (s & <- & Hs).
    exists d, s. repeat split. exact Hs.
Qed.

(** ** The optional stop-loss and take-profit fields *)

Lemma optional_field_range (min max step : Q) (x : option Q) :
  number_input_valid min (Some max) step (or_empty x) = true ->
  forall q, x = Some q -> ~ q == 0 -> min <= q /\ q <= max.
Proof.
  intros Hvalid q -> Hnz. cbn in Hvalid.
  destruct (Qeq_bool q 0) eqn:Hz.
  - apply Qeq_bool_iff in Hz. contradiction.
  - cbn in Hvalid.
    apply andb_prop in Hvalid. destruct Hvalid as [Hvalid _].
    apply andb_prop in Hvalid. destruct Hvalid as [Hmin Hmax].
    split; now apply Qle_bool_iff.
Qed.

Lemma submitted_valid_step (ev : Event) (st st' : State) :
  submitted_valid st -> step ev st = Some st' -> submitted_valid st'.
Proof.
  unfold submitted_valid. intros Hsub Hstep.
  destruct ev; cbn in Hstep;
    try (injection Hstep as <-; exact Hsub).
  - destruct (string_in _ _); [|discriminate].
    injection Hstep as <-. exact Hsub.
  - destruct (negb _); [|discriminate]. cbn in Hstep.
    destruct (form_valid (config st)) eqn:Hvalid; [|discriminate].
    injection Hstep as <-. cbn. constructor; assumption.
  - destruct (pending st); [discriminate|].
    injection Hstep as <-. exact Hsub.
  - destruct (Hook.result (hook st)); [|discriminate].
    injection Hstep as <-. exact Hsub.
Qed.

Lemma reachable_submitted_valid (st : State) :
  reachable st -> submitted_valid st.
Proof.
  intros [evs Hexec].
  assert (Hinit : submitted_valid initial) by constructor.
  exact (exec_preserves submitted_valid submitted_valid_step
           evs _ _ Hinit Hexec).
Qed.

(** C6, as the form has it. In every config the page hands to [run], a
    stop_loss other than 0 lies between 0.01 and 1, both included, and a
    take_profit other than 0 lies between 0.01 and 5, both included. *)
Theorem submitted_optional_fields (st : State) (c : BacktestConfig) :
  reachable st ->
  In c (submitted st) ->
  (forall q, stop_loss c = Some q -> ~ q == 0 ->
     (1 # 100) <= q /\ q <= 1 /\ 0 < q)
  /\ (forall q, take_profit c = Some q -> ~ q == 0 ->
     (1 # 100) <= q /\ q <= 5 /\ 0 < q).
Proof.
  intros Hreach Hin.
  pose proof (reachable_submitted_valid st Hreach) as Hsub.
  unfold submitted_valid in Hsub. rewrite Forall_forall in Hsub.
  specialize (Hsub c Hin). unfold form_valid in Hsub.
  apply andb_prop in Hsub. destruct Hsub as [Hsub Htake].
  apply andb_prop in Hsub. destruct Hsub as [_ Hstop].
  split; intros q Hq Hnz.
  - destruct (optional_field_range _ _ _ _ Hstop q Hq Hnz) as [Hlo Hhi].
    repeat split; try assumption.
    apply Qlt_le_trans with (y := 1 # 100); [reflexivity | exact Hlo].
  - destruct (optional_field_range _ _ _ _ Htake q Hq Hnz) as [Hlo Hhi].
    repeat split; try assumption.
    apply Qlt_le_trans with (y := 1 # 100); [reflexivity | exact Hlo].
Qed.

(** The form accepts a stop_loss of exactly 1: typing 1 into the field
    and pressing the button hands that config to [run]. *)
Lemma stop_loss_one_is_submitted :
  ~ (forall st c, reachable st -> In c (submitted st) ->
       open_unit_fraction (stop_loss c)
       /\ positive_or_null (take_profit c)).
Proof.
  intros Hclaim.
  assert (Hexec : exec [TypeStopLoss (Some 1); PressSubmit] initial
                  = Some {| config := set_stop_loss (Some 1) default_config;
                            hook := Hook.run_start Hook.initial;
                            strategiesLoading := true;
                            strategiesData := None;
                            pending := 1;
                            submitted :=
                              [set_stop_loss (Some 1) default_config] |})
    by reflexivity.
  destruct (Hclaim _ (set_stop_loss (Some 1) default_config)
              (ex_intro _ _ Hexec) (or_introl eq_refl)) as [[_ Hlt] _].
  cbn in Hlt. revert Hlt. apply Qlt_irrefl.
Qed.

(** ** A result without trades *)


End PageProperties.

(** * Properties of the engine *)

Section EngineProperties.

Import Engine.

Variable sqrtF : Q -> Q.
Variable powF : Q -> Q -> Q.

(** ** A flat EquityCurve *)





(** ** Warm-up *)








(** ** A run that never trades *)





(** ** Buy-and-hold *)

Lemma validate_capital (cfg : Config) :
  validate cfg = None -> 0 < initial_capital cfg.
Proof.
  unfold validate. intros Hvalid.
  destruct (negb (start_date cfg <? end_date cfg)%Z); [discriminate|].
  destruct (String.eqb (ticker cfg) EmptyString); [discriminate|].
  destruct (Qle_bool (initial_capital cfg) 0) eqn:Hcap; [discriminate|].
  apply Qnot_le_lt. intros Hle.
  apply Qle_bool_iff in Hle. congruence.
Qed.

Lemma buy_hold_later (seen : list Bar) (b : Bar) :
  seen <> [] -> decide BuyHold (seen ++ [b]) = Hold.
Proof.
  destruct seen as [|a [|a' seen']]; [contradiction | reflexivity..].
Qed.

(** Once long, buy-and-hold without stop or target keeps its position
    and its capital to the end of the pass. *)
Lemma walk_buy_hold_long (cfg : Config) (p : Position) (rest : list Bar) :
  strategy cfg = BuyHold ->
  stop_loss cfg = None ->
  take_profit cfg = None ->
  forall seen st,
    seen <> [] ->
    position st = Some p ->
    let st' := walk cfg seen rest st in
    capital st' = capital st
    /\ position st' = Some p
    /\ ledger st' = ledger st.
Proof.
  intros Hstrat Hstop Htake.
  induction rest as [|b rest IH]; intros seen st Hseen Hlong.
  - cbn. auto.
  - cbn [walk]. unfold bar_step, trade_step.
    rewrite Hstrat, (buy_hold_later seen b Hseen), Hlong.
    unfold exit_trigger, stop_exit, target_exit.
    rewrite Hstop, Htake. cbn [first_some signal_exit].
    apply (IH (seen ++ [b]) (record_equity b st)).
    + destruct seen; discriminate.
    + exact Hlong.
Qed.

Lemma rev_last (first : Bar) (rest : list Bar) :
  exists front, rev (first :: rest) = last (first :: rest) first :: front.
Proof.
  destruct (@exists_last _ (first :: rest)) as (front & b & Heq);
    [discriminate|].
  rewrite Heq, last_last, rev_unit. eauto.
Qed.

(** C1, as the simulator has it. Buy-and-hold with zero commission and
    zero slippage, the whole capital in the position (position_size = 1),
    no stop-loss and no take-profit, on a non-empty Bar Series whose
    first close is not 0: total_return is last_close / first_close - 1
    and the ledger holds exactly one trade, entered on the first bar's
    date and closed on the last bar's date. *)
Theorem buy_hold_total_return (cfg : Config) (first : Bar)
    (rest : list Bar) :
  let bars := first :: rest in
  let final := last bars first in
  validate cfg = None ->
  strategy cfg = BuyHold ->
  commission cfg == 0 ->
  slippage cfg == 0 ->
  position_size cfg == 1 ->
  stop_loss cfg = None ->
  take_profit cfg = None ->
  ~ close first == 0 ->
  exists r t,
    run_backtest sqrtF powF cfg bars = Ok r
    /\ total_return r == close final / close first - 1
    /\ trades r = [t]
    /\ entry_date t = date first
    /\ exit_date t = date final
    /\ exit_reason t = exit_end_of_period.
Proof.
  intros bars final Hvalid Hstrat Hcomm Hslip Hsize Hstop Htake Hfirst.
  pose proof (validate_capital cfg Hvalid) as Hcap.
  subst bars final.
  unfold run_backtest. rewrite Hvalid.
  unfold simulate. cbn [walk app].
  set (st1 := bar_step cfg [first] first (initial_state cfg)).
  assert (Hst1 : st1 = record_equity first
                         (open_position cfg first (initial_state cfg))).
  { unfold st1, bar_step, trade_step. now rewrite Hstrat. }
  destruct (walk_buy_hold_long cfg
              {| pos_entry_date := date first;
                 pos_entry_price := buy_fill cfg (close first);
                 pos_shares := position_size cfg * initial_capital cfg
                               / buy_fill cfg (close first) |}
              rest Hstrat Hstop Htake [first] st1)
    as (Hcapital & Hposition & Hledger);
    [discriminate | rewrite Hst1; reflexivity |].
  destruct (rev_last first rest) as (front & Hrev).
  unfold force_close. rewrite Hposition, Hrev.
  eexists. eexists. split; [reflexivity|].
  cbn [analyze total_return trades close_position capital ledger
       pos_entry_date pos_shares pos_entry_price entry_date exit_date
       exit_reason].
  rewrite Hcapital, Hledger, Hst1.
  repeat split.
  cbn [record_equity open_position capital initial_state].
  unfold sell_fill, buy_fill.
  rewrite Hcomm, Hslip, Hsize.
  field. split; [exact Hfirst|].
  intros Hzero. rewrite Hzero in Hcap. revert Hcap. apply Qlt_irrefl.
Qed.

(** ** Divisions by zero *)






















End EngineProperties.

(** * Worked instances *)

Section Instances.

Import Examples.

(** A run on the default config whose call is rejected, from the fresh
    hook, with nothing else in between. *)
Lemma run_surfaces_outcome_rejected :
  exists m m',
    Hook.calls [Hook.CallRun Page.default_config] Hook.boot = Some m
    /\ Hook.call
         (Hook.SettleRun (Hook.Rejected (Hook.ErrorObject "Ticker not found")))
         m = Some m'
    /\ Hook.error (Hook.cells m') = Some "Ticker not found"%string
    /\ Hook.result (Hook.cells m') = None.
Proof.
  eexists. eexists. split; [reflexivity|]. split; [reflexivity|].
  eapply (proj2 (proj2 run_surfaces_outcome)
            [Hook.CallRun Page.default_config] _
            (Hook.Rejected (Hook.ErrorObject "Ticker not found")));
    reflexivity.
Defined.

(** With a second run started before the first has settled, the first
    resolves, the second rejects, and the result of the first is still
    there after the rejection. *)
Lemma overlapping_run_keeps_result :
  ~ (forall cs m o m',
       Hook.calls cs Hook.boot = Some m ->
       Hook.call (Hook.SettleRun o) m = Some m' ->
       Hook.settled_as o (Hook.cells m')).
Proof.
  intros Hclaim.
  destruct (Hclaim
              [Hook.CallRun Page.default_config;
               Hook.CallRun Page.default_config;
               Hook.SettleRun (Hook.Resolved Scenarios.idle_result)]
              _ (Hook.Rejected Hook.NonError) _ eq_refl eq_refl)
    as [_ Hresult].
  discriminate Hresult.
Qed.

(** A run that fails, then a reset, one at a time. *)
Lemma result_error_exclusive_after_failure :
  exists m,
    Hook.calls [Hook.CallRun Page.default_config;
                Hook.SettleRun (Hook.Rejected Hook.NonError);
                Hook.CallReset] Hook.boot = Some m
    /\ Hook.exclusive (Hook.cells m).
Proof.
  eexists. split; [reflexivity|].
  apply (proj1 result_error_exclusive
           [Hook.CallRun Page.default_config;
            Hook.SettleRun (Hook.Rejected Hook.NonError);
            Hook.CallReset]);
    reflexivity.
Defined.

(** Two runs overlap, one resolves and the other rejects: after the
    second has completed both [result] and [error] are set. *)
Lemma overlapping_runs_break_exclusivity :
  ~ (forall cs c m,
       Hook.calls (cs ++ [c]) Hook.boot = Some m ->
       Hook.is_completion c = true ->
       Hook.exclusive (Hook.cells m)).
Proof.
  intros Hclaim.
  destruct (Hclaim
              [Hook.CallRun Page.default_config;
               Hook.CallRun Page.default_config;
               Hook.SettleRun (Hook.Resolved Scenarios.idle_result)]
              (Hook.SettleRun (Hook.Rejected Hook.NonError))
              _ eq_refl eq_refl) as [Hres | Herr]; discriminate.
Qed.

(** Typing a lowercase ticker and submitting hands "MSFT" to [run]. *)
Lemma ticker_is_uppercased_msft :
  exists st c,
    Page.exec [Page.TypeTicker (text "msft"); Page.PressSubmit] Page.initial
    = Some st
    /\ Page.submitted st = [c]
    /\ ticker c = text "MSFT"
    /\ Page.no_lowercase (ticker c) = true.
Proof.
  eexists. eexists. split; [reflexivity|].
  split; [reflexivity|]. split; [reflexivity|].
  eapply (proj2 (proj2 (proj2 ticker_is_uppercased))
            [Page.TypeTicker (text "msft"); Page.PressSubmit]).
  - reflexivity.
  - reflexivity.
  - left. reflexivity.
Defined.

(** The letter kra (U+0138) is a lowercase letter without an uppercase:
    typed into the Ticker field it is handed to [run] as it is. *)
Lemma kra_stays_lowercase :
  ~ (forall st, Page.reachable st ->
       forall c, In c (Page.submitted st) ->
       Page.no_lowercase (ticker c) = true).
Proof.
  intros Hclaim.
  assert (Hexec : Page.exec [Page.TypeTicker [312%N]; Page.PressSubmit]
                    Page.initial
                  = Some {| Page.config :=
                              Page.set_ticker [312%N] Page.default_config;
                            Page.hook := Hook.run_start Hook.initial;
                            Page.strategiesLoading := true;
                            Page.strategiesData := None;
                            Page.pending := 1;
                            Page.submitted :=
                              [Page.set_ticker [312%N] Page.default_config] |})
    by reflexivity.
  specialize (Hclaim _ (ex_intro _ _ Hexec)
                (Page.set_ticker [312%N] Page.default_config)
                (or_introl eq_refl)).
  discriminate Hclaim.
Qed.

(** Every option rendered for the sample answer comes from it. *)
Lemma strategy_options_from_query_sample :
  let o := {| Page.value := "ma_crossover";
              Page.label := "MA Crossover" |} in
  (false = true /\ o = Page.loading_option)
  \/ (exists d s, Some sample_strategies = Some d
                  /\ In s (strategies d)
                  /\ Page.value o = name s
                  /\ Page.label o = display_name s).
Proof.
  apply (proj2 (proj2 strategy_options_from_query)
           false (Some sample_strategies)).
  cbn. right. left. reflexivity.
Defined.

(** A stop_loss of 0.05 and a take_profit of 0.2 pass the form. *)
Lemma submitted_optional_fields_sample :
  exists st c,
    Page.exec [Page.TypeStopLoss (Some (5 # 100));
               Page.TypeTakeProfit (Some (20 # 100));
               Page.PressSubmit] Page.initial = Some st
    /\ Page.submitted st = [c]
    /\ (forall q, stop_loss c = Some q -> ~ q == 0 ->
          (1 # 100) <= q /\ q <= 1 /\ 0 < q)
    /\ (forall q, take_profit c = Some q -> ~ q == 0 ->
          (1 # 100) <= q /\ q <= 5 /\ 0 < q).
Proof.
  eexists. eexists. split; [reflexivity|]. split; [reflexivity|].
  eapply submitted_optional_fields.
  - exists [Page.TypeStopLoss (Some (5 # 100));
            Page.TypeTakeProfit (Some (20 # 100));
            Page.PressSubmit].
    reflexivity.
  - left. reflexivity.
Defined.

(** The form also lets a stop_loss of 0 through: the field then shows
    empty and passes validation. *)
Lemma zero_stop_loss_is_submitted :
  exists st,
    Page.exec [Page.TypeStopLoss (Some 0); Page.PressSubmit] Page.initial
    = Some st
    /\ map stop_loss (Page.submitted st) = [Some 0].
Proof. eexists. split; reflexivity. Qed.

(** The three-bar scenario: one trade from day 1 to day 3 and a total
    return of -10%. *)
Lemma buy_hold_total_return_three_bars :
  exists r t,
    Engine.run_backtest sqrt_q pow_q (buy_hold_config 1) three_bars
    = Engine.Ok r
    /\ total_return r == 90 / 100 - 1
    /\ trades r = [t]
    /\ entry_date t = 1%Z
    /\ exit_date t = 3%Z
    /\ exit_reason t = exit_end_of_period.
Proof.
  apply (buy_hold_total_return sqrt_q pow_q (buy_hold_config 1)
           (flat_bar 1%Z 100) [flat_bar 2%Z 110; flat_bar 3%Z 90]);
    try reflexivity.
  discriminate.
Defined.

(** With half of the capital in the position the same scenario returns
    -5%, not last_close / first_close - 1 = -10%. *)
Lemma buy_hold_half_position :
  ~ (forall (sqrtF : Q -> Q) (powF : Q -> Q -> Q) (cfg : Engine.Config)
            (first : Engine.Bar) (rest : list Engine.Bar),
       let bars := first :: rest in
       let final := last bars first in
       Engine.validate cfg = None ->
       Engine.strategy cfg = Engine.BuyHold ->
       Engine.commission cfg == 0 ->
       Engine.slippage cfg == 0 ->
       exists r t,
         Engine.run_backtest sqrtF powF cfg bars = Engine.Ok r
         /\ total_return r
            == Engine.close final / Engine.close first - 1
         /\ trades r = [t]
         /\ entry_date t = Engine.date first
         /\ exit_date t = Engine.date final).
Proof.
  intros Hclaim.
  destruct (Hclaim sqrt_q pow_q (buy_hold_config (1 # 2))
              (flat_bar 1%Z 100) [flat_bar 2%Z 110; flat_bar 3%Z 90]
              eq_refl eq_refl (Qeq_refl 0) (Qeq_refl 0))
    as (r & t & Hrun & Hreturn & _).
  assert (Hcomputed :
            Engine.run_backtest sqrt_q pow_q (buy_hold_config (1 # 2))
              (flat_bar 1%Z 100 :: [flat_bar 2%Z 110; flat_bar 3%Z 90])
            = Engine.Ok
                (Engine.analyze sqrt_q pow_q (buy_hold_config (1 # 2))
                   three_bars
                   (Engine.simulate (buy_hold_config (1 # 2)) three_bars)))
    by reflexivity.
  rewrite Hcomputed in Hrun. injection Hrun as <-.
  cbn [total_return Engine.analyze] in Hreturn.
  revert Hreturn. vm_compute. discriminate.
Qed.


End Instances.

(** * Why the premises of the buy-and-hold property are needed *)

Section BuyHoldPremises.

Import Examples.

(** With a 5% stop-loss, buy-and-hold on closes 100, 90, 100, 120 is
    stopped out on the second bar and ends at -5%, while
    last_close / first_close - 1 is +20%. *)
Lemma buy_hold_stopped_out :
  let cfg :=
    {| Engine.strategy := Engine.BuyHold;
       Engine.ticker := "AAPL";
       Engine.start_date := 1%Z;
       Engine.end_date := 4%Z;
       Engine.initial_capital := 100000;
       Engine.position_size := 1;
       Engine.commission := 0;
       Engine.slippage := 0;
       Engine.stop_loss := Some (5 # 100);
       Engine.take_profit := None |} in
  let bars := [flat_bar 1%Z 100; flat_bar 2%Z 90; flat_bar 3%Z 100;
               flat_bar 4%Z 120] in
  exists r t,
    Engine.run_backtest sqrt_q pow_q cfg bars = Engine.Ok r
    /\ trades r = [t]
    /\ exit_date t = 2%Z
    /\ exit_reason t = exit_stop_loss
    /\ total_return r == - (5 # 100).
Proof.
  cbv zeta. eexists. eexists.
  split; [reflexivity|].
  split; [reflexivity|].
  repeat split.
Qed.

End BuyHoldPremises.

(** * The page while a run is pending and after it settles *)

Section RunLifecycle.

Import Page.
Import Controls.

(** On the page [isRunning] is true exactly while a [runBacktest] call is
    pending, and at most one call is pending at a time. *)
Theorem running_iff_pending (st : State) :
  reachable st ->
  (Hook.isRunning (hook st) = true <-> pending st = 1%nat)
  /\ (Hook.isRunning (hook st) = false <-> pending st = O).
Proof.
  intros Hreach.
  destruct (reachable_hook_inv st Hreach) as [(Hp & Hrun & _) | (Hp & Hh)].
  - rewrite Hp, Hrun. repeat split; intros; try reflexivity; discriminate.
  - rewrite Hp, Hh. cbn. repeat split; intros; try reflexivity; discriminate.
Qed.

(** While a run is pending the results column shows only the prompt (the
    previous result and the previous error are gone), the submit button
    is disabled and reads "Running...", there is no Reset button, and
    neither button can be pressed. *)
Theorem pending_view (st : State) :
  reachable st ->
  pending st = 1%nat ->
  results_panel (hook st) = [EmptyPrompt]
  /\ submit_button (hook st)
     = {| disabled := true; caption := "Running..." |}
  /\ reset_button (hook st) = None
  /\ step PressSubmit st = None
  /\ step ClickReset st = None.
Proof.
  intros Hreach Hpending.
  destruct (reachable_hook_inv st Hreach) as [(Hp & _) | (_ & Hh)];
    [congruence|].
  unfold step, submit_button, reset_button. rewrite Hh. cbn.
  repeat split.
Qed.

(** When the pending run settles, the submit button is enabled again
    whatever the outcome, and the results column depends on the outcome
    alone: the metrics with the trades table (or the no-trades message)
    for a result; the error banner over the prompt for a failure, and the
    prompt alone when the failure's message is empty. *)
Theorem settled_view (st st' : State) (o : Hook.Settled) :
  reachable st ->
  step (Settle o) st = Some st' ->
  pending st' = O
  /\ submit_button (hook st')
     = {| disabled := false; caption := "Run Backtest" |}
  /\ results_panel (hook st')
     = match o with
       | Hook.Resolved r =>
           PerformanceMetrics r
           :: match trades r with
              | [] => [NoTradesMessage]
              | _ :: _ => [TradesTable (trades r)]
              end
       | Hook.Rejected err =>
           match Hook.error_message err with
           | EmptyString => [EmptyPrompt]
           | String _ _ => [ErrorBanner (Hook.error_message err); EmptyPrompt]
           end
       end.
Proof.
  intros Hreach Hstep. cbn in Hstep.
  destruct (pending st) as [|n] eqn:Hp; [discriminate|].
  injection Hstep as <-.
  destruct (reachable_hook_inv st Hreach) as [(Hp' & _) | (Hp' & Hh)];
    [congruence|].
  cbn. rewrite Hh.
  split; [congruence|].
  destruct o as [r | err].
  - split; [reflexivity|]. cbn.
    destruct (trades r); reflexivity.
  - split; [reflexivity|]. cbn.
    destruct (Hook.error_message err); reflexivity.
Qed.

(** The results column of a reachable page has one of four shapes: the
    prompt alone, an error banner over the prompt, the metrics with the
    no-trades message, or the metrics with the trades table. It never
    shows an error banner together with metrics. *)
Theorem results_panel_shapes (st : State) :
  reachable st ->
  let shown := results_panel (hook st) in
  shown = [EmptyPrompt]
  \/ (exists message, Hook.error (hook st) = Some message
                      /\ shown = [ErrorBanner message; EmptyPrompt])
  \/ (exists r, Hook.result (hook st) = Some r
                /\ trades r = []
                /\ shown = [PerformanceMetrics r; NoTradesMessage])
  \/ (exists r, Hook.result (hook st) = Some r
                /\ trades r <> []
                /\ shown = [PerformanceMetrics r; TradesTable (trades r)]).
Proof.
  intros Hreach shown. subst shown.
  assert (Hex : Hook.exclusive (hook st)).
  { destruct (reachable_hook_inv st Hreach) as [(_ & _ & Hex) | (_ & Hh)];
      [exact Hex | rewrite Hh; now left]. }
  unfold results_panel.
  destruct Hex as [Hres | Herr].
  - rewrite Hres.
    destruct (Hook.error (hook st)) as [[|c m]|] eqn:He; cbn.
    + now left.
    + right. left. eexists. split; reflexivity.
    + now left.
  - rewrite Herr. cbn.
    destruct (Hook.result (hook st)) as [r|] eqn:Hr; [|now left].
    right. right.
    destruct (trades r) as [|t ts] eqn:Ht; cbn.
    + left. exists r. repeat split; assumption.
    + right. exists r. rewrite Ht. repeat split. discriminate.
Qed.

End RunLifecycle.

(** * What the form does and does not check *)

Section FormChecks.

Import Page.
Import Controls.

Lemma costs_fixed_step (ev : Event) (st st' : State) :
  costs_fixed st -> step ev st = Some st' -> costs_fixed st'.
Proof.
  intros [Hcfg Hsub] Hstep.
  destruct ev; cbn in Hstep;
    try (injection Hstep as <-; split; assumption).
  - destruct (string_in _ _); [|discriminate].
    injection Hstep as <-. split; assumption.
  - destruct (negb _ && _)%bool; [|discriminate].
    injection Hstep as <-. split; [assumption|].
    cbn. constructor; assumption.
  - destruct (pending st); [discriminate|].
    injection Hstep as <-. split; assumption.
  - destruct (Hook.result (hook st)); [|discriminate].
    injection Hstep as <-. split; assumption.
Qed.

(** The form has no control for commission or slippage: whatever the
    user does, the form state and every config handed to [run] carry the
    initial 0.001 for both. *)
Theorem costs_are_fixed (st : State) :
  reachable st ->
  (commission (config st) = 1 # 1000 /\ slippage (config st) = 1 # 1000)
  /\ (forall c, In c (submitted st) ->
        commission c = 1 # 1000 /\ slippage c = 1 # 1000).
Proof.
  intros [evs Hexec].
  assert (Hinit : costs_fixed initial)
    by (split; [split; reflexivity | constructor]).
  destruct (exec_preserves costs_fixed costs_fixed_step evs _ _ Hinit Hexec)
    as [Hcfg Hsub].
  split; [exact Hcfg|].
  intros c Hin. rewrite Forall_forall in Hsub. exact (Hsub c Hin).
Qed.

Lemma is_integer_spec (q : Q) :
  is_integer q = true -> exists n : Z, q == inject_Z n.
Proof.
  unfold is_integer. intros Hmod. apply Z.eqb_eq in Hmod.
  exists (Qnum q / Zpos (Qden q))%Z.
  unfold Qeq. cbn.
  rewrite Z.mul_1_r.
  rewrite (Z.div_mod (Qnum q) (Zpos (Qden q))) at 1 by discriminate.
  rewrite Hmod. lia.
Qed.

Lemma required_field_range (min max step v : Q) :
  number_input_valid min (Some max) step (Some v) = true ->
  min <= v /\ v <= max /\ exists n : Z, (v - min) / step == inject_Z n.
Proof.
  cbn. intros Hvalid.
  apply andb_prop in Hvalid. destruct Hvalid as [Hvalid Hstep].
  apply andb_prop in Hvalid. destruct Hvalid as [Hmin Hmax].
  repeat split; try now apply Qle_bool_iff.
  now apply is_integer_spec.
Qed.

(** Every config handed to [run] has an initial capital that is a
    positive multiple of 1000 and a position size that is one of 0.1,
    0.2, ..., 1. *)
Theorem submitted_capital_and_size (st : State) (c : BacktestConfig) :
  reachable st ->
  In c (submitted st) ->
  (exists k : Z, (1 <= k)%Z /\ initial_capital c == 1000 * inject_Z k)
  /\ (exists k : Z, (1 <= k <= 10)%Z
                    /\ position_size c == inject_Z k / 10).
Proof.
  intros Hreach Hin.
  pose proof (reachable_submitted_valid st Hreach) as Hsub.
  unfold submitted_valid in Hsub. rewrite Forall_forall in Hsub.
  specialize (Hsub c Hin). unfold form_valid in Hsub.
  apply andb_prop in Hsub. destruct Hsub as [Hsub _].
  apply andb_prop in Hsub. destruct Hsub as [Hsub _].
  apply andb_prop in Hsub. destruct Hsub as [Hcap Hsize].
  split.
  - cbn in Hcap.
    apply andb_prop in Hcap. destruct Hcap as [Hcap Hstep].
    apply andb_prop in Hcap. destruct Hcap as [Hmin _].
    apply Qle_bool_iff in Hmin.
    destruct (is_integer_spec _ Hstep) as (n & Hn).
    assert (Hval : initial_capital c == 1000 * inject_Z (n + 1)).
    { rewrite inject_Z_plus.
      setoid_replace (initial_capital c)
        with (1000 * ((initial_capital c - 1000) / 1000) + 1000)
        by field.
      rewrite Hn. cbn. ring. }
    exists (n + 1)%Z. split; [|exact Hval].
    rewrite Hval in Hmin.
    assert (Hone : 1 <= inject_Z (n + 1)).
    { apply Qmult_le_l with (z := 1000); [reflexivity|].
      rewrite Qmult_1_r. exact Hmin. }
    change 1 with (inject_Z 1) in Hone.
    now rewrite Zle_Qle.
  - destruct (required_field_range _ _ _ _ Hsize) as (Hmin & Hmax & n & Hn).
    assert (Hval : position_size c == inject_Z (n + 1) / 10).
    { rewrite inject_Z_plus.
      setoid_replace (position_size c)
        with ((((position_size c - (1 # 10)) / (1 # 10)) + 1) / 10)
        by field.
      rewrite Hn. cbn. reflexivity. }
    exists (n + 1)%Z. split; [|exact Hval].
    rewrite Hval in Hmin, Hmax.
    assert (Hlo : inject_Z 1 <= inject_Z (n + 1)).
    { apply Qmult_le_l with (z := 1 # 10); [reflexivity|].
      setoid_replace ((1 # 10) * inject_Z 1) with (1 # 10) by reflexivity.
      setoid_replace ((1 # 10) * inject_Z (n + 1))
        with (inject_Z (n + 1) / 10) by field.
      exact Hmin. }
    assert (Hhi : inject_Z (n + 1) <= inject_Z 10).
    { apply Qmult_le_l with (z := 1 # 10); [reflexivity|].
      setoid_replace ((1 # 10) * inject_Z 10) with 1 by reflexivity.
      setoid_replace ((1 # 10) * inject_Z (n + 1))
        with (inject_Z (n + 1) / 10) by field.
      exact Hmax. }
    split; now rewrite Zle_Qle.
Qed.

Lemma exec_two (e1 e2 : Event) (st : State) :
  exec [e1; e2] st
  = match step e1 st with
    | Some st1 => step e2 st1
    | None => None
    end.
Proof.
  cbn [exec]. destruct (step e1 st) as [st1|]; [|reflexivity].
  destruct (step e2 st1); reflexivity.
Qed.

Lemma form_invalid_no_submit (st : State) :
  form_valid (config st) = false -> step PressSubmit st = None.
Proof.
  intros Hinvalid. cbn. rewrite Hinvalid.
  now rewrite andb_false_r.
Qed.

(** An initial capital below 1000 or a position size outside 0.1 .. 1
    blocks the submit; in particular emptying either field does, since
    the empty field is stored as 0. *)
Theorem out_of_range_blocks_submit (st : State) (v : option Q) :
  (Number v < 1000 ->
   exec [TypeInitialCapital v; PressSubmit] st = None)
  /\ (Number v < 1 # 10 \/ 1 < Number v ->
      exec [TypePositionSize v; PressSubmit] st = None)
  /\ (v = None ->
      exec [TypeInitialCapital v; PressSubmit] st = None
      /\ exec [TypePositionSize v; PressSubmit] st = None).
Proof.
  assert (Hcap : Number v < 1000 ->
                 exec [TypeInitialCapital v; PressSubmit] st = None).
  { intros Hlow. rewrite exec_two.
    change (step (TypeInitialCapital v) st)
      with (Some (with_config (set_initial_capital (Number v)) st)).
    apply form_invalid_no_submit.
    cbn [config with_config]. unfold form_valid.
    cbn [initial_capital set_initial_capital number_input_valid].
    destruct (Qle_bool 1000 (Number v)) eqn:Hle; [|reflexivity].
    apply Qle_bool_iff in Hle.
    exfalso. exact (Qlt_not_le _ _ Hlow Hle). }
  assert (Hsize : Number v < 1 # 10 \/ 1 < Number v ->
                  exec [TypePositionSize v; PressSubmit] st = None).
  { intros Hout. rewrite exec_two.
    change (step (TypePositionSize v) st)
      with (Some (with_config (set_position_size (Number v)) st)).
    apply form_invalid_no_submit.
    cbn [config with_config]. unfold form_valid.
    cbn [position_size set_position_size initial_capital
         number_input_valid].
    rewrite andb_false_iff. left.
    rewrite andb_false_iff. left.
    rewrite andb_false_iff. right.
    destruct (Qle_bool (1 # 10) (Number v)) eqn:Hlo; [|reflexivity].
    destruct (Qle_bool (Number v) 1) eqn:Hhi; [|reflexivity].
    apply Qle_bool_iff in Hlo, Hhi.
    exfalso. destruct Hout as [Hout | Hout].
    - exact (Qlt_not_le _ _ Hout Hlo).
    - exact (Qlt_not_le _ _ Hout Hhi). }
  split; [exact Hcap|]. split; [exact Hsize|].
  intros ->. split; [apply Hcap | apply Hsize; left]; reflexivity.
Qed.

(** The form checks neither the ticker nor the dates: whatever is typed
    or picked there (the empty string, an end date before the start
    date), an idle form whose number fields are valid still submits, and
    [run] receives the uppercased ticker and the dates as entered. *)
Theorem text_fields_never_block (st : State) (t : Text) (a b : string) :
  Hook.isRunning (hook st) = false ->
  form_valid (config st) = true ->
  exists st' c,
    exec [TypeTicker t; PickStartDate a; PickEndDate b; PressSubmit] st
    = Some st'
    /\ submitted st' = c :: submitted st
    /\ ticker c = toUpperCase t
    /\ start_date c = a
    /\ end_date c = b.
Proof.
  intros Hidle Hvalid. cbn [exec step].
  cbn [hook with_config config].
  rewrite Hidle.
  replace (form_valid _) with (form_valid (config st)) by reflexivity.
  rewrite Hvalid. cbn [negb andb].
  eexists. eexists. split; [reflexivity|].
  cbn. repeat split.
Qed.

(** Pressing Reset empties the results column and removes the Reset
    button, so it cannot be pressed twice in a row; the form keeps what
    was entered and the submit button is enabled. *)
Theorem reset_click (st st' : State) :
  step ClickReset st = Some st' ->
  config st' = config st
  /\ results_panel (hook st') = [EmptyPrompt]
  /\ reset_button (hook st') = None
  /\ submit_button (hook st')
     = {| disabled := false; caption := "Run Backtest" |}
  /\ step ClickReset st' = None.
Proof.
  cbn. destruct (Hook.result (hook st)); [|discriminate].
  intros Hstep. injection Hstep as <-. cbn. repeat split.
Qed.

Lemma edit_frame (ev : Event) (st st' : State) :
  is_edit ev = true ->
  step ev st = Some st' ->
  hook st' = hook st
  /\ pending st' = pending st
  /\ submitted st' = submitted st.
Proof.
  intros Hedit Hstep.
  destruct ev; try discriminate; cbn in Hstep;
    try (injection Hstep as <-; repeat split).
  destruct (string_in _ _); [|discriminate].
  injection Hstep as <-. repeat split.
Qed.

(** However many fields are edited, in whatever order, the hook state,
    the pending run and the configs already handed to [run] stay as they
    were: editing the form during a run changes neither what was sent nor
    what is shown. *)
Theorem edits_keep_run (evs : list Event) (st st' : State) :
  forallb is_edit evs = true ->
  exec evs st = Some st' ->
  hook st' = hook st
  /\ pending st' = pending st
  /\ submitted st' = submitted st
  /\ results_panel (hook st') = results_panel (hook st).
Proof.
  revert st. induction evs as [|ev evs IH]; intros st Hedits Hexec.
  - injection Hexec as <-. repeat split.
  - cbn in Hedits. apply andb_prop in Hedits. destruct Hedits as [Hev Hrest].
    cbn in Hexec. destruct (step ev st) as [st1|] eqn:Hstep; [|discriminate].
    destruct (edit_frame ev st st1 Hev Hstep) as (Hh & Hp & Hs).
    destruct (IH st1 Hrest Hexec) as (Hh' & Hp' & Hs' & _).
    rewrite Hh', Hp', Hs'. repeat split; try assumption.
    now rewrite Hh.
Qed.

(** On ASCII text uppercasing keeps the length and uppercasing again
    changes nothing, so after ASCII typing, typing the ticker the field
    already shows leaves the whole page state as it is. Outside ASCII the
    length can change: the sharp s becomes two letters. *)
Theorem ticker_field_stable :
  (forall v, forallb is_ascii v = true ->
     List.length (toUpperCase v) = List.length v
     /\ toUpperCase (toUpperCase v) = toUpperCase v)
  /\ toUpperCase (text "stra" ++ [223%N] ++ text "e") = text "STRASSE"
  /\ (forall evs st,
        ascii_typing evs = true ->
        exec evs initial = Some st ->
        step (TypeTicker (ticker (config st))) st = Some st).
Proof.
  split; [|split].
  - intros v Hascii. split.
    + rewrite (toUpperCase_ascii v Hascii). apply length_map.
    + apply toUpperCase_fixed. now apply toUpperCase_ascii_capital.
  - reflexivity.
  - intros evs st Hascii Hexec.
    destruct (exec_preserves_when tickers_upper ascii_event
                tickers_upper_step evs _ _ Hascii tickers_upper_initial
                Hexec) as [Hup _].
    cbn. rewrite (toUpperCase_fixed _ Hup).
    destruct st as [c h l d p sub]. destruct c. reflexivity.
Qed.

End FormChecks.

(** * The hook without the page's guard *)

Section BareHook.

Import Hook.

(** The hook itself does not serialise its callers. If [run] is called
    again before the first call has settled, [isRunning] drops to false
    as soon as the first call settles, while the second is still pending;
    and when the first resolves and the second rejects (or the other way
    round) the hook ends with both a result and an error. *)
Theorem overlapping_runs_keep_both
    (s : State) (data : BacktestResult) (err : Thrown) :
  let started := run_start (run_start s) in
  let first_resolved := fst (run_settle (Resolved data) started) in
  let first_rejected := fst (run_settle (Rejected err) started) in
  isRunning first_resolved = false
  /\ isRunning first_rejected = false
  /\ fst (run_settle (Rejected err) first_resolved)
     = {| isRunning := false; result := Some data;
          error := Some (error_message err) |}
  /\ fst (run_settle (Resolved data) first_rejected)
     = {| isRunning := false; result := Some data;
          error := Some (error_message err) |}
  /\ ~ exclusive (fst (run_settle (Rejected err) first_resolved)).
Proof.
  cbn. repeat split.
  intros [Hres | Herr]; discriminate.
Qed.

End BareHook.

(** * Worked page scenarios *)

Section PageScenarios.

Import Page.
Import Controls.
Import Scenarios.

Lemma reachable_exec (evs : list Event) (st : State) :
  exec evs initial = Some st -> reachable st.
Proof. intros Hexec. now exists evs. Qed.

(** Right after the submit one call is pending and [isRunning] is true. *)
Lemma running_iff_pending_after_submit :
  exists st,
    exec submit_only initial = Some st
    /\ (Hook.isRunning (hook st) = true <-> pending st = 1%nat)
    /\ (Hook.isRunning (hook st) = false <-> pending st = O).
Proof.
  eexists. split; [reflexivity|].
  apply running_iff_pending.
  apply (reachable_exec submit_only). reflexivity.
Defined.

Lemma pending_view_after_submit :
  exists st,
    exec submit_only initial = Some st
    /\ results_panel (hook st) = [EmptyPrompt]
    /\ submit_button (hook st)
       = {| disabled := true; caption := "Running..." |}
    /\ reset_button (hook st) = None
    /\ step PressSubmit st = None
    /\ step ClickReset st = None.
Proof.
  eexists. split; [reflexivity|].
  apply pending_view.
  - apply (reachable_exec submit_only). reflexivity.
  - reflexivity.
Defined.

Lemma settled_view_after_failure :
  exists st st',
    exec submit_only initial = Some st
    /\ step (Settle (Hook.Rejected (Hook.ErrorObject "HTTP 500"))) st
       = Some st'
    /\ pending st' = O
    /\ submit_button (hook st')
       = {| disabled := false; caption := "Run Backtest" |}
    /\ results_panel (hook st') = [ErrorBanner "HTTP 500"; EmptyPrompt].
Proof.
  eexists. eexists. split; [reflexivity|]. split; [reflexivity|].
  eapply (settled_view _ _ (Hook.Rejected (Hook.ErrorObject "HTTP 500"))).
  - apply (reachable_exec submit_only). reflexivity.
  - reflexivity.
Defined.

Lemma results_panel_shapes_after_success :
  exists st,
    exec submit_succeeds initial = Some st
    /\ (results_panel (hook st) = [EmptyPrompt]
        \/ (exists message,
               Hook.error (hook st) = Some message
               /\ results_panel (hook st)
                  = [ErrorBanner message; EmptyPrompt])
        \/ (exists r,
               Hook.result (hook st) = Some r
               /\ trades r = []
               /\ results_panel (hook st)
                  = [PerformanceMetrics r; NoTradesMessage])
        \/ (exists r,
               Hook.result (hook st) = Some r
               /\ trades r <> []
               /\ results_panel (hook st)
                  = [PerformanceMetrics r; TradesTable (trades r)])).
Proof.
  eexists. split; [reflexivity|].
  apply results_panel_shapes.
  apply (reachable_exec submit_succeeds). reflexivity.
Defined.

Lemma costs_are_fixed_after_submit :
  exists st c,
    exec type_and_submit initial = Some st
    /\ submitted st = [c]
    /\ commission c = 1 # 1000
    /\ slippage c = 1 # 1000.
Proof.
  eexists. eexists. split; [reflexivity|].
  lazymatch goal with
  | |- submitted ?st = _ /\ _ =>
      pose proof (reachable_exec type_and_submit st eq_refl) as Hreach
  end.
  split; [reflexivity|].
  apply (proj2 (costs_are_fixed _ Hreach)). left. reflexivity.
Defined.

Lemma submitted_capital_and_size_default :
  exists st c,
    exec type_and_submit initial = Some st
    /\ submitted st = [c]
    /\ (exists k : Z, (1 <= k)%Z /\ initial_capital c == 1000 * inject_Z k)
    /\ (exists k : Z, (1 <= k <= 10)%Z
                      /\ position_size c == inject_Z k / 10).
Proof.
  eexists. eexists. split; [reflexivity|]. split; [reflexivity|].
  eapply submitted_capital_and_size.
  - apply (reachable_exec type_and_submit). reflexivity.
  - left. reflexivity.
Defined.

(** Emptying the capital field of the initial form blocks the submit. *)
Lemma out_of_range_blocks_submit_cleared :
  exec [TypeInitialCapital None; PressSubmit] initial = None
  /\ exec [TypePositionSize None; PressSubmit] initial = None.
Proof.
  exact (proj2 (proj2 (out_of_range_blocks_submit initial None)) eq_refl).
Defined.

(** An empty ticker and an end date before the start date are submitted. *)
Lemma text_fields_never_block_reversed_dates :
  exists st' c,
    exec [TypeTicker []; PickStartDate "2024-01-01";
          PickEndDate "2023-01-01"; PressSubmit] initial = Some st'
    /\ submitted st' = c :: submitted initial
    /\ ticker c = toUpperCase []
    /\ start_date c = "2024-01-01"%string
    /\ end_date c = "2023-01-01"%string.
Proof.
  apply text_fields_never_block; reflexivity.
Defined.

Lemma reset_click_after_success :
  exists st st',
    exec submit_succeeds initial = Some st
    /\ step ClickReset st = Some st'
    /\ config st' = config st
    /\ results_panel (hook st') = [EmptyPrompt]
    /\ reset_button (hook st') = None
    /\ submit_button (hook st')
       = {| disabled := false; caption := "Run Backtest" |}
    /\ step ClickReset st' = None.
Proof.
  eexists. eexists. split; [reflexivity|]. split; [reflexivity|].
  apply reset_click. reflexivity.
Defined.

(** Two edits made while the call is pending. *)
Lemma edits_keep_run_while_pending :
  exists st st',
    exec submit_only initial = Some st
    /\ exec [TypeTicker (text "nvda"); TypeStopLoss (Some (5 # 100))] st = Some st'
    /\ hook st' = hook st
    /\ pending st' = pending st
    /\ submitted st' = submitted st
    /\ results_panel (hook st') = results_panel (hook st).
Proof.
  eexists. eexists. split; [reflexivity|]. split; [reflexivity|].
  apply (edits_keep_run [TypeTicker (text "nvda"); TypeStopLoss (Some (5 # 100))]);
    reflexivity.
Defined.

Lemma ticker_field_stable_after_typing :
  exists st,
    exec [TypeTicker (text "msft")] initial = Some st
    /\ step (TypeTicker (ticker (config st))) st = Some st.
Proof.
  eexists. split; [reflexivity|].
  apply (proj2 (proj2 ticker_field_stable) [TypeTicker (text "msft")]);
    reflexivity.
Defined.

End PageScenarios.

(** * Worked edge cases of the engine *)

Section EngineEdgeCases.

Import Examples.
Import EdgeCases.



(** A first close of 0 leaves the benchmark return undefined. *)
Lemma zero_first_close_benchmark (b : Engine.Bar) (rest : list Engine.Bar) :
  Engine.close b == 0 -> Engine.benchmark_checked (b :: rest) = None.
Proof.
  intros Hzero. unfold Engine.benchmark_checked.
  destruct (rev (b :: rest)) as [|last front] eqn:Hrev.
  - apply (f_equal (@List.length _)) in Hrev.
    rewrite length_rev in Hrev. discriminate.
  - unfold Engine.div_checked.
    apply Qeq_bool_iff in Hzero. now rewrite Hzero.
Qed.

End EngineEdgeCases.
